(** * A festival food-stall register: the ledger, the basket and the reports

    Shallow embedding of [src/app.py].  The Google spreadsheet is a list of
    worksheets in tab order, each holding the rows that [get_all_values]
    returns; the Streamlit session is a record holding the basket and the
    notices put on screen.  Clock readings ([date.today()], [datetime.now()])
    and the two library parsers ([int], [date.fromisoformat]) are inputs of
    the functions that use them. *)

From stdpp Require Import base list strings sorting pretty numbers gmap.
From Stdlib Require Import Ascii ZArith Lia.

#[local] Set Default Proof Using "Type".

(** ** Dates and clock readings *)

Record date := Date { year : nat; month : nat; day : nat }.

Record datetime := DateTime {
  dt_date : date; hour : nat; minute : nat; second : nat }.

Global Instance date_eq_dec : EqDecision date.
Proof. solve_decision. Defined.

(** Python compares [date] values by (year, month, day). *)
Definition date_ltb (a b : date) : bool :=
  if decide (year a = year b) then
    if decide (month a = month b) then bool_decide (day a < day b)
    else bool_decide (month a < month b)
  else bool_decide (year a < year b).

(** Calendar order, written out. *)
Definition date_le (a b : date) : Prop :=
  year a < year b
  ∨ (year a = year b
     ∧ (month a < month b ∨ (month a = month b ∧ day a ≤ day b))).

(** Zero padding of the ["%02d"] and ["%04d"] kind. *)
Definition zfill (width : nat) (s : string) : string :=
  String.concat "" (replicate (width - String.length s) "0") +:+ s.

Definition isoformat (d : date) : string :=
  zfill 4 (pretty (year d)) +:+ "-" +:+ zfill 2 (pretty (month d))
    +:+ "-" +:+ zfill 2 (pretty (day d)).

(** [now.strftime("%H:%M:%S")] *)
Definition strftime_HMS (t : datetime) : string :=
  zfill 2 (pretty (hour t)) +:+ ":" +:+ zfill 2 (pretty (minute t))
    +:+ ":" +:+ zfill 2 (pretty (second t)).

(** ** The ledger store

    A row is the list of cell texts [get_all_values] yields for it.  Cells
    handed to [append_row] are Python strings or integers; the sheet shows
    an integer in decimal. *)

Abbreviation Row := (list string).

Inductive Cell :=
  | CStr (s : string)
  | CInt (z : Z).

Definition cell_text (c : Cell) : string :=
  match c with
  | CStr s => s
  | CInt z => pretty z
  end.

Record Worksheet := Sheet { title : string; values : list Row }.

(** [sh.worksheets()], in tab order.  A worksheet handle is its position:
    tabs are only ever added at the end and never removed. *)
Abbreviation Spreadsheet := (list Worksheet).
Abbreviation Handle := nat (only parsing).

Definition with_values (f : list Row → list Row) (ws : Worksheet) : Worksheet :=
  Sheet (title ws) (f (values ws)).

(** [sh.worksheet(name)]: the first tab with that title, or
    [WorksheetNotFound]. *)
Definition worksheet (name : string) (sh : Spreadsheet) : option Handle :=
  fst <$> list_find (λ ws, title ws = name) sh.

Definition add_worksheet (name : string) (sh : Spreadsheet)
    : Handle * Spreadsheet :=
  (length sh, sh ++ [Sheet name []]).

Definition get_all_values (ws : Handle) (sh : Spreadsheet) : list Row :=
  from_option values [] (sh !! ws).

Definition ws_title (ws : Handle) (sh : Spreadsheet) : string :=
  from_option title "" (sh !! ws).

Definition append_row (ws : Handle) (row : list Cell) (sh : Spreadsheet)
    : Spreadsheet :=
  alter (with_values (λ rows, rows ++ [cell_text <$> row])) ws sh.

(** [ws.delete_rows(index)], rows being numbered from 1.  The service
    rejects index 0; the register never asks for it. *)
Definition delete_rows (ws : Handle) (index : nat) (sh : Spreadsheet)
    : Spreadsheet :=
  match index with
  | 0 => sh
  | S i => alter (with_values (delete i)) ws sh
  end.

Definition worksheets (sh : Spreadsheet) : list Handle := seq 0 (length sh).

(** The rows of the tab called [name], when there is one. *)
Definition ledger (name : string) (sh : Spreadsheet) : option (list Row) :=
  (λ ws, get_all_values ws sh) <$> worksheet name sh.

(** ** The session and its monad *)

Inductive Level := Warning | Success | Info | Error.

Definition Notice : Type := Level * string.

Record World := Mk_World {
  book : Spreadsheet;      (* the spreadsheet behind SPREADSHEET_ID *)
  basket : list Z;         (* st.session_state.basket *)
  shown : list Notice      (* what st.warning / st.success / ... put on screen *)
}.

Definition App (A : Type) : Type := World → A * World.

Global Instance App_ret : MRet App := λ A x w, (x, w).
Global Instance App_bind : MBind App :=
  λ A B f m w, let '(x, w') := m w in f x w'.

Definition read_book {A} (f : Spreadsheet → A) : App A :=
  λ w, (f (book w), w).
Definition write_book (f : Spreadsheet → Spreadsheet) : App unit :=
  λ w, (tt, Mk_World (f (book w)) (basket w) (shown w)).
Definition call_book {A} (f : Spreadsheet → A * Spreadsheet) : App A :=
  λ w, let '(x, sh) := f (book w) in (x, Mk_World sh (basket w) (shown w)).
Definition get_basket : App (list Z) := λ w, (basket w, w).
Definition set_basket (b : list Z) : App unit :=
  λ w, (tt, Mk_World (book w) b (shown w)).
Definition notify (l : Level) (msg : string) : App unit :=
  λ w, (tt, Mk_World (book w) (basket w) (shown w ++ [(l, msg)])).

Definition exec {A} (m : App A) (w : World) : World := (m w).2.
Definition eval {A} (m : App A) (w : World) : A := (m w).1.

(** ** [get_today_worksheet] *)

Definition header : list Cell :=
  [CStr "timestamp"; CStr "date"; CStr "count"; CStr "amount"; CStr "detail"].

(** The header row as the sheet stores it. *)
Definition header_row : Row := cell_text <$> header.

Definition get_today_worksheet (today : date) : App Handle :=
  let sheet_name := isoformat today in
  found ← read_book (worksheet sheet_name);
  match found with
  | Some ws => mret ws
  | None =>
      ws ← call_book (add_worksheet sheet_name);
      write_book (append_row ws header);;
      mret ws
  end.

(** ** Python list indexing, slicing and sorting *)

(** [l[i]], with negative positions counted from the end; [None] stands for
    [IndexError]. *)
Definition py_index {A} (l : list A) (i : Z) : option A :=
  if decide (i < 0)%Z then
    if decide (0 ≤ Z.of_nat (length l) + i)%Z
    then l !! Z.to_nat (Z.of_nat (length l) + i) else None
  else l !! Z.to_nat i.

(** [l[start:]] *)
Definition py_slice_from {A} (start : Z) (l : list A) : list A :=
  let len := Z.of_nat (length l) in
  let lo := if decide (start < 0)%Z then Z.max (len + start) 0
            else Z.min start len in
  drop (Z.to_nat lo) l.

(** [list.sort(key=...)] and [sorted]: a stable sort that only ever asks
    whether one key is smaller than another.  An element goes in front of
    the first later element whose key is not smaller than its own. *)
Section py_sort.
Context {A K : Type} (ltb : K → K → bool) (key : A → K).

Fixpoint py_insert (x : A) (l : list A) : list A :=
  match l with
  | [] => [x]
  | y :: l' => if ltb (key y) (key x) then y :: py_insert x l' else x :: l
  end.

Definition py_sort (l : list A) : list A := foldr py_insert [] l.

(** [x] is not after [y]: the key of [y] is not smaller than that of [x]. *)
Definition not_after (x y : A) : Prop := ltb (key y) (key x) = false.
End py_sort.

(** Tuples [(price, cnt)] compare lexicographically. *)
Definition item_ltb (a b : Z * nat) : bool :=
  if decide (a.1 = b.1) then bool_decide (a.2 < b.2)
  else bool_decide (a.1 < b.1)%Z.

(** ** [collections.Counter] over the basket *)

Definition Counter (xs : list Z) : gmap Z nat :=
  foldl (λ c x, <[x := S (default 0 (c !! x))]> c) ∅ xs.

(** ** The loop body of the two reports

    The body runs statement by statement over the two running totals and
    may raise; whatever it had already added stays added. *)

Inductive exn := ValueError | IndexError.

Record Totals := Mk_Totals { total_count : Z; total_amount : Z }.

Definition Try (A : Type) : Type := Totals → (exn + A) * Totals.

Global Instance Try_ret : MRet Try := λ A x t, (inr x, t).
Global Instance Try_bind : MBind Try := λ A B f m t,
  match m t with
  | (inl e, t') => (inl e, t')
  | (inr x, t') => f x t'
  end.

Definition raise {A} (e : exn) : Try A := λ t, (inl e, t).

Definition or_raise {A} (e : exn) (o : option A) : Try A :=
  match o with
  | Some x => mret x
  | None => raise e
  end.

Definition add_total_count (c : Z) : Try unit :=
  λ t, (inr tt, Mk_Totals (total_count t + c) (total_amount t)).
Definition add_total_amount (a : Z) : Try unit :=
  λ t, (inr tt, Mk_Totals (total_count t) (total_amount t + a)).

(** [try: body  except (ValueError, IndexError): continue] *)
Definition try_continue (body : Try unit) (t : Totals) : Totals := (body t).2.

(** ** Reference parsers

    [int] and [date.fromisoformat] belong to Python, not to the register;
    the register's functions below take them as parameters, and every
    general fact below holds whatever the two parsers accept.  The two
    functions here read plain ASCII text and serve to run the register on
    concrete ledgers: decimal numerals with an optional sign, single
    underscores between digits and blanks around them, and dates written
    [YYYY-MM-DD]. *)

Fixpoint lstrip (s : string) : string :=
  match s with
  | String a s' => if Ascii.is_space a then lstrip s' else s
  | EmptyString => EmptyString
  end.

Definition strip (s : string) : string :=
  String.rev (lstrip (String.rev (lstrip s))).

Fixpoint digits (acc : Z) (after_digit : bool) (s : string) : option Z :=
  match s with
  | EmptyString => if after_digit then Some acc else None
  | String a s' =>
      match Ascii.is_nat a with
      | Some d => digits (10 * acc + Z.of_nat d) true s'
      | None =>
          if decide (a = "_"%char ∧ after_digit = true)
          then digits acc false s'
          else None
      end
  end.

Definition int_ascii (s : string) : option Z :=
  match strip s with
  | String "-" r => Z.opp <$> digits 0 false r
  | String "+" r => digits 0 false r
  | r => digits 0 false r
  end.

Definition is_leap (y : nat) : bool :=
  bool_decide (y mod 4 = 0 ∧ (y mod 100 ≠ 0 ∨ y mod 400 = 0)).

Definition days_in_month (y m : nat) : nat :=
  match m with
  | 2 => if is_leap y then 29 else 28
  | 4 | 6 | 9 | 11 => 30
  | _ => 31
  end.

Definition number (s : list ascii) : option nat :=
  foldl (λ acc a, n ← acc; d ← Ascii.is_nat a; Some (10 * n + d)) (Some 0) s.

Definition fromisoformat_ymd (s : string) : option date :=
  match String.list_ascii_of_string s with
  | [y1; y2; y3; y4; "-"; m1; m2; "-"; d1; d2]%char =>
      y ← number [y1; y2; y3; y4];
      m ← number [m1; m2];
      d ← number [d1; d2];
      if decide (1 ≤ y ∧ 1 ≤ m ≤ 12 ∧ 1 ≤ d ≤ days_in_month y m)
      then Some (Date y m d) else None
  | _ => None
  end.

(** ** Sample data: a festival day, a book of three days and a tab of
    notes, and a ledger with a damaged row *)

Definition nov21 : date := Date 2025 11 21.

Definition opening : datetime := DateTime nov21 9 5 3.

Definition sale_of (count amount : string) : Row :=
  ["12:00:00"; "2025-11-21"; count; amount; "300円×1"].

Definition festival_book : Spreadsheet :=
  [ Sheet "2025-11-20" [header_row; sale_of "2" "400"];
    Sheet "extras" [["shopping list"]; ["potatoes"; "oil"; "salt"]];
    Sheet "2025-11-19" [header_row; sale_of "1" "300"];
    Sheet "2025-11-21" [header_row; sale_of "1" "300"; sale_of "2" "600"] ].

Definition damaged_book : Spreadsheet :=
  [ Sheet "2025-11-21" [header_row; sale_of "two" "600"; sale_of "2" "600"] ].

(** A row whose amount cell was cut off. *)
Definition cut_row : Row := ["12:00:00"; "2025-11-21"; "2"].

(** ** The register *)

Definition BASE_PRICE : Z := 300.
Definition SEMINAR_PRICE : Z := 200.

Section register.
(** [int(text)]; [None] stands for [ValueError]. *)
Variable py_int : string → option Z.
(** [date.fromisoformat(text)]; [None] stands for [ValueError]. *)
Variable fromisoformat : string → option date.
(** The shared secret read from the deployment's secrets at start-up. *)
Variable DISCOUNT_PASSWORD : string.

(** The body under [try] in both reports. *)
Definition tally_row (row : Row) : Try unit :=
  count_text ← or_raise IndexError (row !! 2);
  c ← or_raise ValueError (py_int count_text);
  amount_text ← or_raise IndexError (row !! 3);
  a ← or_raise ValueError (py_int amount_text);
  add_total_count c;;
  add_total_amount a.

(** [for row in values[1:]: try: ... except (ValueError, IndexError): continue] *)
Definition tally_rows (values : list Row) (t : Totals) : Totals :=
  foldl (λ t row, try_continue (tally_row row) t) t (drop 1 values).

Definition get_today_stats (today : date) : App (Z * Z) :=
  ws ← get_today_worksheet today;
  values ← read_book (get_all_values ws);
  if decide (length values ≤ 1) then mret (0%Z, 0%Z)
  else
    let t := tally_rows values (Mk_Totals 0 0) in
    mret (total_count t, total_amount t).

Definition PeriodStats : Type := Z * Z * option string * option string.

(** The report over the last [n] dated tabs.  It only reads the book.
    [inl IndexError] is the uncaught error of [last[0]] on an empty
    selection. *)
Definition last_n_days (n : Z) (sh : Spreadsheet) : exn + PeriodStats :=
  let date_sheets :=
    foldl (λ acc ws,
             match fromisoformat (ws_title ws sh) with
             | Some d => acc ++ [(d, ws)]
             | None => acc
             end) [] (worksheets sh) in
  if decide (date_sheets = []) then inr (0%Z, 0%Z, None, None)
  else
    let date_sheets := py_sort date_ltb fst date_sheets in
    let last := py_slice_from (- n) date_sheets in
    let t :=
      foldl (λ t '(_, ws),
               let values := get_all_values ws sh in
               if decide (length values ≤ 1) then t
               else tally_rows values t) (Mk_Totals 0 0) last in
    match py_index last 0, py_index last (-1) with
    | Some first, Some final =>
        let start_date := isoformat first.1 in
        let end_date := isoformat final.1 in
        inr (total_count t, total_amount t, Some start_date, Some end_date)
    | _, _ => inl IndexError
    end.

Definition get_last_n_days_stats (n : Z) : App (exn + PeriodStats) :=
  read_book (last_n_days n).

Definition cancel_last_transaction (today : date) : App unit :=
  ws ← get_today_worksheet today;
  values ← read_book (get_all_values ws);
  if decide (length values ≤ 1) then
    notify Warning "まだ会計データがありません。"
  else
    let last_row := length values in
    write_book (delete_rows ws last_row);;
    notify Success "直前の会計を取り消しました。".

(** [sorted(counter.items())] *)
Definition sorted_items (counter : gmap Z nat) : list (Z * nat) :=
  py_sort item_ltb id (map_to_list counter).

Definition detail_of (basket : list Z) : string :=
  let counter := Counter basket in
  let detail_parts :=
    (λ '(price, cnt), pretty price +:+ "円×" +:+ pretty cnt)
      <$> sorted_items counter in
  String.concat ", " detail_parts.

Definition save_transaction (basket : list Z) (today : date) (now : datetime)
    : App unit :=
  if decide (basket = []) then notify Warning "カゴが空です。"
  else
    ws ← get_today_worksheet today;
    let ts := strftime_HMS now in
    let d := isoformat (dt_date now) in
    let count := Z.of_nat (length basket) in
    let amount := foldl Z.add 0%Z basket in
    let detail := detail_of basket in
    write_book (append_row ws [CStr ts; CStr d; CInt count; CInt amount;
                               CStr detail]);;
    notify Success ("会計を保存しました：" +:+ pretty count +:+ "個 / "
                      +:+ pretty amount +:+ "円").

(** *** The button branches of [main], named by their widget keys *)

Definition basket_append (unit_price : Z) : App unit :=
  b ← get_basket;
  set_basket (b ++ [unit_price]).

Definition btn_base : App unit := basket_append BASE_PRICE.
Definition btn_semi : App unit := basket_append SEMINAR_PRICE.
Definition btn_sale (sale_price : Z) : App unit := basket_append sale_price.

(** The password expander.  [btn_special] carries the discount price when
    the button under the unlocked price input was pressed.  The result
    tells whether the price input was drawn. *)
Definition pwd_special (pwd : string) (btn_special : option Z) : App bool :=
  if decide (pwd = DISCOUNT_PASSWORD) then
    match btn_special with
    | Some discount_price => basket_append discount_price
    | None => mret tt
    end;;
    mret true
  else if decide (pwd ≠ "") then
    notify Error "パスワードが違います。";;
    mret false
  else mret false.

Definition btn_reset_main : App unit :=
  set_basket [];;
  notify Info "カゴを空にしました。".

Definition btn_confirm_main (today : date) (now : datetime) : App unit :=
  b ← get_basket;
  if decide (b ≠ []) then
    save_transaction b today now;;
    set_basket [];;
    notify Success "会計を保存しました。"
  else notify Warning "カゴが空です。".

Definition btn_cancel_main (today : date) : App unit :=
  cancel_last_transaction today;;
  notify Info "直前の会計を取り消しました。".

(** *** Operator actions and report views, one per call *)

Inductive Op :=
  | AddBasePrice
  | AddSeminarPrice
  | AddSalePrice (value : Z)
  | SubmitDiscountPassword (pwd : string) (btn_special : option Z)
  | ResetBasket
  | ConfirmSale (today : date) (now : datetime)
  | VoidLast (today : date)
  | TodayStatsView (today : date)
  | PeriodStatsView (n : Z).

Definition run_op (op : Op) : App unit :=
  match op with
  | AddBasePrice => btn_base
  | AddSeminarPrice => btn_semi
  | AddSalePrice value => btn_sale value
  | SubmitDiscountPassword pwd btn => pwd_special pwd btn;; mret tt
  | ResetBasket => btn_reset_main
  | ConfirmSale today now => btn_confirm_main today now
  | VoidLast today => btn_cancel_main today
  | TodayStatsView today => get_today_stats today;; mret tt
  | PeriodStatsView n => get_last_n_days_stats n;; mret tt
  end.

Definition run_ops (ops : list Op) (w : World) : World :=
  foldl (λ w op, exec (run_op op) w) w ops.

(** *** Vocabulary of the specification *)

(** Today's Day Ledger: the tab named by the ISO form of the date. *)
Definition day_ledger (today : date) (w : World) : option (list Row) :=
  ledger (isoformat today) (book w).

(** The Transaction Rows of a day: every row after the header row. *)
Definition transaction_rows (today : date) (w : World) : list Row :=
  drop 1 (default [] (day_ledger today w)).

Definition sumZ (l : list Z) : Z := foldr Z.add 0%Z l.

(** The multiplicity of a price in a basket. *)
Definition occurrences (p : Z) (b : list Z) : nat :=
  length (filter (λ x, x = p) b).

(** A row counts towards the reports when both fields are there and
    both read as integers. *)
Definition row_entry (row : Row) : option (Z * Z) :=
  c ← row !! 2 ≫= py_int;
  a ← row !! 3 ≫= py_int;
  Some (c, a).

Definition sum_entries (es : list (Z * Z)) : Z * Z :=
  (sumZ es.*1, sumZ es.*2).

Definition add_entries (t : Totals) (es : list (Z * Z)) : Totals :=
  Mk_Totals (total_count t + (sum_entries es).1)
            (total_amount t + (sum_entries es).2).

Definition tab_entries (sh : Spreadsheet) (ws : Handle) : list (Z * Z) :=
  omap row_entry (drop 1 (get_all_values ws sh)).

(** The dated tabs, in tab order; then the window of the last [n] of
    them by date. *)
Definition dated_tabs (sh : Spreadsheet) : list (date * Handle) :=
  omap (λ ws, d ← fromisoformat (ws_title ws sh); Some (d, ws))
       (worksheets sh).

Definition by_date (sh : Spreadsheet) : list (date * Handle) :=
  py_sort date_ltb fst (dated_tabs sh).

Definition window (n : nat) (sh : Spreadsheet) : list (date * Handle) :=
  drop (length (by_date sh) - n) (by_date sh).

Definition period_stats (n : nat) (sh : Spreadsheet) : PeriodStats :=
  let sel := window n sh in
  match sel with
  | [] => (0%Z, 0%Z, None, None)
  | first :: _ =>
      let '(c, a) := sum_entries (sel ≫= λ s, tab_entries sh s.2) in
      (c, a, Some (isoformat first.1),
             Some (isoformat (default first (last sel)).1))
  end.

(** The states of a Day Ledger.  A tab of at most one row is what the
    register itself reads as holding the header only. *)
Inductive LedgerState := Absent | HeaderOnly | HasRows.

Definition ledger_state (l : option (list Row)) : LedgerState :=
  match l with
  | None => Absent
  | Some rows => if decide (length rows ≤ 1) then HeaderOnly else HasRows
  end.

Definition rank (s : LedgerState) : nat :=
  match s with
  | Absent => 0
  | HeaderOnly => 1
  | HasRows => 2
  end.

Definition transition_ok (op : Op) (s s' : LedgerState) : Prop :=
  rank s ≤ rank s'
  ∨ ((∃ today, op = VoidLast today) ∧ s = HasRows ∧ s' = HeaderOnly).

(** *** One run of [main]

    Streamlit runs the script from top to bottom once per interaction and
    redraws the page; at most one button reads as pressed in a run, while
    the text and number inputs keep their values.  The clock is read once
    for the sidebar and again in the branch of the pressed button. *)

Inductive Button :=
  | Btn_base
  | Btn_semi
  | Btn_sale
  | Btn_special
  | Btn_reset_main
  | Btn_confirm_main
  | Btn_cancel_main.

Global Instance Button_eq_dec : EqDecision Button.
Proof. solve_decision. Defined.










(** *** Further vocabulary *)

(** No two tabs share a title. *)
Definition titles_unique (sh : Spreadsheet) : Prop := NoDup (title <$> sh).

(** Price times multiplicity, added up over the groups of a detail. *)
Definition groups_count (gs : list (Z * nat)) : Z :=
  sumZ ((λ g, Z.of_nat g.2) <$> gs).
Definition groups_amount (gs : list (Z * nat)) : Z :=
  sumZ ((λ g, (g.1 * Z.of_nat g.2)%Z) <$> gs).

(** The characters decimal numerals are written with. *)
Definition numeral_char (a : ascii) : bool :=
  bool_decide (a = "-"%char) || bool_decide (is_Some (Ascii.is_nat a)).

Fixpoint all_chars (P : ascii → bool) (s : string) : bool :=
  match s with
  | EmptyString => true
  | String a s' => P a && all_chars P s'
  end.

(** A text at which a numeral read from the left has to stop. *)
Definition stops_numeral (s : string) : bool :=
  match s with
  | EmptyString => true
  | String a _ => negb (numeral_char a)
  end.

(** One part of a detail, and what follows a part in the joined text. *)
Definition detail_part (g : Z * nat) : string :=
  pretty g.1 +:+ "円×" +:+ pretty g.2.

Definition detail_rest (gs : list (Z * nat)) : string :=
  match gs with
  | [] => ""
  | _ => ", " +:+ String.concat ", " (detail_part <$> gs)
  end.

(** The day an action reads from the clock, when it reads one. *)
Definition op_day (op : Op) : option date :=
  match op with
  | ConfirmSale today _ | VoidLast today | TodayStatsView today => Some today
  | _ => None
  end.

(** The report over a selection of dated tabs. *)
Definition window_report (sh : Spreadsheet) (sel : list (date * Handle))
    : PeriodStats :=
  match sel with
  | [] => (0%Z, 0%Z, None, None)
  | first :: _ =>
      let '(c, a) := sum_entries (sel ≫= λ s, tab_entries sh s.2) in
      (c, a, Some (isoformat first.1),
             Some (isoformat (default first (last sel)).1))
  end.

(** A sum over the entries of a counter, in whatever order. *)
Definition groups_sum (f : Z * nat → Z) (m : gmap Z nat) : Z :=
  sumZ (f <$> map_to_list m).

(** The report a day's rows stand for. *)
Definition day_totals (rows : list Row) : Z * Z :=
  sum_entries (omap row_entry rows).

(** Unfolds the session monad down to pairs of result and session. *)
Ltac run_app :=
  unfold exec, eval, mbind, App_bind, mret, App_ret, read_book, write_book,
    call_book, get_basket, set_basket, notify; simpl.

(** * Facts about the store *)

Lemma worksheet_cons (name : string) (x : Worksheet) (sh : Spreadsheet) :
  worksheet name (x :: sh) =
    if decide (title x = name) then Some 0 else S <$> worksheet name sh.
Proof.
  unfold worksheet.
  change (list_find (λ ws, title ws = name) (x :: sh))
    with (if decide (title x = name) then Some (0, x)
          else prod_map S id <$> list_find (λ ws, title ws = name) sh).
  case_decide; [done|].
  by destruct (list_find (λ ws, title ws = name) sh) as [[??]|].
Qed.

Lemma worksheet_alter (name : string) (f : list Row → list Row)
    (ws : Handle) (sh : Spreadsheet) :
  worksheet name (alter (with_values f) ws sh) = worksheet name sh.
Proof.
  revert ws. induction sh as [|x sh IH]; intros [|ws]; try done.
  - change (alter (with_values f) 0 (x :: sh)) with (with_values f x :: sh).
    by rewrite !worksheet_cons.
  - change (alter (with_values f) (S ws) (x :: sh))
      with (x :: alter (with_values f) ws sh).
    by rewrite !worksheet_cons, IH.
Qed.

Lemma worksheet_lookup (name : string) (sh : Spreadsheet) (ws : Handle) :
  worksheet name sh = Some ws → ∃ x, sh !! ws = Some x ∧ title x = name.
Proof.
  unfold worksheet. intros H.
  destruct (list_find _ sh) as [[i x]|] eqn:E; simplify_eq/=.
  apply list_find_Some in E as (? & ? & _). eauto.
Qed.

Lemma worksheet_snoc (name m : string) (rows : list Row) (sh : Spreadsheet) :
  worksheet name (sh ++ [Sheet m rows]) =
    match worksheet name sh with
    | Some ws => Some ws
    | None => if decide (m = name) then Some (length sh) else None
    end.
Proof.
  induction sh as [|x sh IH].
  - change ([] ++ [Sheet m rows]) with [Sheet m rows].
    rewrite worksheet_cons. simpl. by case_decide.
  - change ((x :: sh) ++ [Sheet m rows]) with (x :: (sh ++ [Sheet m rows])).
    rewrite !worksheet_cons, IH.
    destruct (decide (title x = name)); [done|].
    destruct (worksheet name sh); simpl; [done|].
    by destruct (decide (m = name)).
Qed.

Lemma alter_snoc {A} (f : A → A) (l : list A) (x : A) :
  alter f (length l) (l ++ [x]) = l ++ [f x].
Proof. induction l; f_equal/=; done. Qed.

Lemma get_all_values_alter (f : list Row → list Row) (i j : Handle)
    (sh : Spreadsheet) :
  get_all_values j (alter (with_values f) i sh) =
    if decide (i = j ∧ j < length sh) then f (get_all_values j sh)
    else get_all_values j sh.
Proof.
  unfold get_all_values. rewrite list_lookup_alter.
  destruct (decide (i = j)) as [->|].
  - destruct (sh !! j) eqn:E; simpl.
    + apply lookup_lt_Some in E. by rewrite decide_True.
    + apply lookup_ge_None in E. rewrite decide_False; [done|]. lia.
  - rewrite decide_False; [done|]. by intros [? _].
Qed.

Lemma ledger_alter (n m : string) (f : list Row → list Row) (ws : Handle)
    (sh : Spreadsheet) :
  worksheet m sh = Some ws →
  ledger n (alter (with_values f) ws sh) =
    if decide (n = m) then f <$> ledger n sh else ledger n sh.
Proof.
  intros Hm. unfold ledger. rewrite worksheet_alter.
  destruct (worksheet_lookup _ _ _ Hm) as (x & Hx & Htx).
  destruct (decide (n = m)) as [->|Hne].
  - rewrite Hm. simpl. rewrite get_all_values_alter, decide_True; [done|].
    split; [done|]. by eapply lookup_lt_Some.
  - destruct (worksheet n sh) as [k|] eqn:Hn; simpl; [|done].
    rewrite get_all_values_alter, decide_False; [done|].
    intros [-> _]. destruct (worksheet_lookup _ _ _ Hn) as (y & Hy & Hty).
    congruence.
Qed.

Lemma ledger_snoc (n m : string) (rows : list Row) (sh : Spreadsheet) :
  worksheet m sh = None →
  ledger n (sh ++ [Sheet m rows]) =
    if decide (n = m) then Some rows else ledger n sh.
Proof.
  intros Hm. unfold ledger. rewrite worksheet_snoc.
  destruct (decide (n = m)) as [->|Hne].
  - rewrite Hm, decide_True by done. simpl. unfold get_all_values.
    by rewrite lookup_app_r, Nat.sub_diag.
  - destruct (worksheet n sh) as [k|] eqn:Hn; simpl.
    + destruct (worksheet_lookup _ _ _ Hn) as (y & Hy & _).
      unfold get_all_values. by rewrite lookup_app_l by (by eapply lookup_lt_Some).
    + by rewrite decide_False.
Qed.

Lemma worksheet_ledger (n : string) (sh : Spreadsheet) :
  worksheet n sh = None ↔ ledger n sh = None.
Proof. unfold ledger. by destruct (worksheet n sh). Qed.

(** What [get_today_worksheet] leaves behind: the day's tab exists, holding
    the rows it held before or else the header row alone; every other tab,
    the basket and the screen are as they were. *)
Lemma get_today_worksheet_spec (today : date) (w : World) :
  ∃ ws sh,
    get_today_worksheet today w = (ws, Mk_World sh (basket w) (shown w))
    ∧ worksheet (isoformat today) sh = Some ws
    ∧ (ledger (isoformat today) (book w) ≠ None → sh = book w)
    ∧ ∀ n, ledger n sh =
        if decide (n = isoformat today)
        then Some (default [header_row] (ledger n (book w)))
        else ledger n (book w).
Proof.
  unfold get_today_worksheet, mbind, App_bind, mret, App_ret, read_book,
    call_book, write_book, add_worksheet. simpl.
  destruct (worksheet (isoformat today) (book w)) as [ws|] eqn:E.
  - exists ws, (book w). destruct w; simpl in *. split_and!; try done.
    intros n. case_decide; subst; [|done].
    unfold ledger. by rewrite E.
  - eexists _, _. split; [reflexivity|]. simpl.
    unfold append_row. rewrite alter_snoc. unfold with_values. simpl.
    split_and!.
    + by rewrite worksheet_snoc, E, decide_True.
    + intros []. by apply worksheet_ledger.
    + intros n. rewrite ledger_snoc by done.
      case_decide; subst; [|done].
      apply worksheet_ledger in E. by rewrite E.
Qed.

Lemma ledger_values (n : string) (sh : Spreadsheet) (ws : Handle) :
  worksheet n sh = Some ws → ledger n sh = Some (get_all_values ws sh).
Proof. unfold ledger. by intros ->. Qed.

Lemma delete_last {A} (l : list A) (x : A) : delete (length l) (l ++ [x]) = l.
Proof. induction l; f_equal/=; done. Qed.

Lemma snoc_cases {A} (l : list A) : l = [] ∨ ∃ l' x, l = l' ++ [x].
Proof. destruct l as [|a l] using rev_ind; eauto. Qed.

(** The effect of [save_transaction] on a basket that is not empty. *)
Lemma save_transaction_spec (b : list Z) (today : date) (now : datetime)
    (w : World) :
  b ≠ [] →
  let w' := exec (save_transaction b today now) w in
  let row := [strftime_HMS now; isoformat (dt_date now);
              pretty (Z.of_nat (length b)); pretty (foldl Z.add 0%Z b);
              detail_of b] in
  basket w' = basket w
  ∧ shown w' = shown w ++
      [(Success, "会計を保存しました：" +:+ pretty (Z.of_nat (length b))
                   +:+ "個 / " +:+ pretty (foldl Z.add 0%Z b) +:+ "円")]
  ∧ ∀ n, ledger n (book w') =
      if decide (n = isoformat today)
      then Some (default [header_row] (ledger n (book w)) ++ [row])
      else ledger n (book w).
Proof.
  intros Hb. unfold save_transaction. rewrite decide_False by done.
  destruct (get_today_worksheet_spec today w) as (ws & sh & Hrun & Hws & _ & Hl).
  run_app. rewrite Hrun. simpl. split_and!; try done.
  intros n. unfold append_row. rewrite (ledger_alter n _ _ _ _ Hws), Hl.
  by case_decide.
Qed.

(** The effect of [cancel_last_transaction], by the rows the day's tab
    holds once it exists. *)
Lemma cancel_last_transaction_spec (today : date) (w : World) :
  let w' := exec (cancel_last_transaction today) w in
  let rows := default [header_row] (day_ledger today w) in
  basket w' = basket w
  ∧ (length rows ≤ 1 →
       shown w' = shown w ++ [(Warning, "まだ会計データがありません。")]
       ∧ (day_ledger today w ≠ None → book w' = book w)
       ∧ ∀ n, ledger n (book w') =
           if decide (n = isoformat today) then Some rows
           else ledger n (book w))
  ∧ (1 < length rows →
       shown w' = shown w ++ [(Success, "直前の会計を取り消しました。")]
       ∧ ∀ n, ledger n (book w') =
           if decide (n = isoformat today)
           then Some (take (length rows - 1) rows)
           else ledger n (book w)).
Proof.
  unfold cancel_last_transaction, day_ledger.
  destruct (get_today_worksheet_spec today w) as (ws & sh & Hrun & Hws & Hsame & Hl).
  run_app. rewrite Hrun. simpl.
  assert (get_all_values ws sh
          = default [header_row] (ledger (isoformat today) (book w))) as Hv.
  { pose proof (ledger_values _ _ _ Hws) as Hv.
    rewrite Hl, decide_True in Hv by done. congruence. }
  rewrite Hv. clear Hv.
  set (rows := default [header_row] (ledger (isoformat today) (book w))) in *.
  destruct (decide (length rows ≤ 1)) as [Hle|Hgt]; simpl.
  - split_and!; [done| |intros; lia].
    intros _. split_and!; [done|done|].
    intros n. rewrite Hl. case_decide; [|done]. by subst.
  - split_and!; [done|intros; lia|].
    intros _. split; [done|].
    intros n.
    destruct (snoc_cases rows) as [E|(l' & x & E)].
    { rewrite E in Hgt. simpl in Hgt. lia. }
    rewrite E, length_app. simpl.
    replace (length l' + 1) with (S (length l')) by lia. simpl.
    rewrite (ledger_alter n _ _ _ _ Hws), Hl.
    case_decide; [|done]. subst n. simpl. fold rows. rewrite E.
    rewrite delete_last, Nat.sub_0_r. by rewrite take_app_length.
Qed.

(** * Facts about sorting and counting *)

Section py_sort_facts.
Context {A K : Type} (ltb : K → K → bool) (key : A → K).

Lemma py_insert_perm (x : A) (l : list A) : py_insert ltb key x l ≡ₚ x :: l.
Proof.
  induction l as [|y l IH]; simpl; [done|].
  destruct (ltb (key y) (key x)); [|done].
  rewrite IH. apply Permutation_swap.
Qed.

Lemma py_sort_perm (l : list A) : py_sort ltb key l ≡ₚ l.
Proof.
  induction l as [|x l IH]; simpl; [done|].
  by rewrite py_insert_perm, IH.
Qed.

Lemma py_sort_length (l : list A) : length (py_sort ltb key l) = length l.
Proof. by rewrite py_sort_perm. Qed.

Hypothesis ltb_asym : ∀ a b, ltb a b = true → ltb b a = false.
Hypothesis not_ltb_trans :
  ∀ a b c, ltb b a = false → ltb c b = false → ltb c a = false.

Lemma py_insert_sorted (x : A) (l : list A) :
  StronglySorted (not_after ltb key) l →
  StronglySorted (not_after ltb key) (py_insert ltb key x l).
Proof using ltb_asym not_ltb_trans.
  induction 1 as [|y l Hl IH Hy]; simpl.
  - repeat constructor.
  - destruct (ltb (key y) (key x)) eqn:E.
    + constructor; [done|].
      rewrite py_insert_perm. constructor; [|done].
      by apply ltb_asym.
    + constructor; [by constructor|].
      constructor; [done|].
      eapply Forall_impl; [exact Hy|].
      intros z Hz. unfold not_after in *. eauto.
Qed.

Lemma py_sort_sorted (l : list A) :
  StronglySorted (not_after ltb key) (py_sort ltb key l).
Proof using ltb_asym not_ltb_trans.
  induction l as [|x l IH]; simpl; [constructor|].
  by apply py_insert_sorted.
Qed.
End py_sort_facts.

Lemma item_ltb_asym (a b : Z * nat) : item_ltb a b = true → item_ltb b a = false.
Proof.
  unfold item_ltb. destruct a as [p c], b as [q d]; simpl.
  repeat case_decide; subst; rewrite ?bool_decide_eq_true, ?bool_decide_eq_false;
    try lia; try done.
Qed.

Lemma item_not_ltb_trans (a b c : Z * nat) :
  item_ltb b a = false → item_ltb c b = false → item_ltb c a = false.
Proof.
  unfold item_ltb. destruct a as [p x], b as [q y], c as [r z]; simpl.
  repeat case_decide; subst; rewrite ?bool_decide_eq_false; try lia; try done.
Qed.

Lemma date_ltb_asym (a b : date) : date_ltb a b = true → date_ltb b a = false.
Proof.
  unfold date_ltb. destruct a, b; simpl.
  repeat case_decide; subst; rewrite ?bool_decide_eq_true, ?bool_decide_eq_false;
    try lia; try done.
Qed.

Lemma date_not_ltb_trans (a b c : date) :
  date_ltb b a = false → date_ltb c b = false → date_ltb c a = false.
Proof.
  unfold date_ltb. destruct a, b, c; simpl.
  repeat case_decide; subst; rewrite ?bool_decide_eq_false; try lia; try done.
Qed.

Lemma Counter_snoc (b : list Z) (x : Z) :
  Counter (b ++ [x]) = <[x := S (default 0 (Counter b !! x))]> (Counter b).
Proof. unfold Counter. by rewrite foldl_app. Qed.

Lemma occurrences_snoc (p x : Z) (b : list Z) :
  occurrences p (b ++ [x]) =
    if decide (x = p) then S (occurrences p b) else occurrences p b.
Proof.
  unfold occurrences. rewrite filter_app, length_app.
  rewrite filter_cons, filter_nil. case_decide; simpl; lia.
Qed.

(** [Counter] holds, for each price of the basket, how often it occurs. *)
Lemma Counter_lookup (b : list Z) (p : Z) :
  Counter b !! p =
    if decide (occurrences p b = 0) then None else Some (occurrences p b).
Proof.
  induction b as [|x b IH] using rev_ind; [done|].
  rewrite Counter_snoc, occurrences_snoc.
  destruct (decide (x = p)) as [->|Hne].
  - rewrite lookup_insert_eq, IH.
    repeat case_decide; simpl; try done; f_equal; lia.
  - by rewrite lookup_insert_ne.
Qed.

Lemma Counter_perm (b1 b2 : list Z) : b1 ≡ₚ b2 → Counter b1 = Counter b2.
Proof.
  intros Hp. apply map_eq. intros p. rewrite !Counter_lookup.
  assert (occurrences p b1 = occurrences p b2) as ->; [|done].
  unfold occurrences. apply Permutation_length. by apply filter_Permutation.
Qed.

Lemma sorted_items_elem (m : gmap Z nat) (p : Z) (c : nat) :
  (p, c) ∈ sorted_items m ↔ m !! p = Some c.
Proof.
  unfold sorted_items. rewrite py_sort_perm. apply elem_of_map_to_list.
Qed.

Lemma sorted_items_ascending (m : gmap Z nat) :
  StronglySorted (λ a b : Z * nat, (a.1 < b.1)%Z) (sorted_items m).
Proof.
  assert (NoDup (sorted_items m).*1) as Hnd.
  { unfold sorted_items. rewrite py_sort_perm. apply NoDup_fst_map_to_list. }
  pose proof (py_sort_sorted item_ltb id item_ltb_asym item_not_ltb_trans
                (map_to_list m)) as Hs.
  fold (sorted_items m) in Hs.
  induction Hs as [|x l Hl IH Hx]; [constructor|].
  simpl in Hnd. apply NoDup_cons in Hnd as [Hx' Hnd].
  constructor; [by apply IH|].
  apply Forall_forall. intros y Hy.
  rewrite Forall_forall in Hx. specialize (Hx y Hy).
  assert (x.1 ≠ y.1) as Hne.
  { intros E. apply Hx'. rewrite E. by apply list_elem_of_fmap_2. }
  unfold not_after, item_ltb in Hx. simpl in Hx.
  rewrite decide_False in Hx by done.
  apply bool_decide_eq_false in Hx. lia.
Qed.

Lemma foldl_add_sumZ (b : list Z) : foldl Z.add 0%Z b = sumZ b.
Proof.
  assert (∀ z, foldl Z.add z b = (z + sumZ b)%Z) as H.
  { unfold sumZ. induction b as [|x b IH]; intros z; simpl; [lia|].
    rewrite IH. lia. }
  by rewrite H.
Qed.

Lemma detail_of_groups (b : list Z) :
  detail_of b =
    String.concat ", "
      ((λ g : Z * nat, pretty g.1 +:+ "円×" +:+ pretty g.2)
         <$> sorted_items (Counter b)).
Proof.
  unfold detail_of. f_equal. apply list_fmap_ext. by intros _ [??] _.
Qed.

(** * Facts about the reports *)

Lemma try_tally_row (row : Row) (t : Totals) :
  try_continue (tally_row row) t =
    match row_entry row with
    | Some (c, a) => Mk_Totals (total_count t + c) (total_amount t + a)
    | None => t
    end.
Proof.
  unfold try_continue, tally_row, row_entry, or_raise, raise,
    add_total_count, add_total_amount, mbind, Try_bind, mret, Try_ret.
  destruct (row !! 2) as [s2|]; simpl; [|done].
  destruct (py_int s2) as [c|]; simpl; [|done].
  destruct (row !! 3) as [s3|]; simpl; [|done].
  by destruct (py_int s3) as [a|].
Qed.

Lemma sum_entries_cons (e : Z * Z) (es : list (Z * Z)) :
  sum_entries (e :: es) =
    ((e.1 + (sum_entries es).1)%Z, (e.2 + (sum_entries es).2)%Z).
Proof. done. Qed.

Lemma sum_entries_app (es1 es2 : list (Z * Z)) :
  sum_entries (es1 ++ es2) =
    (((sum_entries es1).1 + (sum_entries es2).1)%Z,
     ((sum_entries es1).2 + (sum_entries es2).2)%Z).
Proof.
  induction es1 as [|e es1 IH]; [by unfold sum_entries|].
  change ((e :: es1) ++ es2) with (e :: (es1 ++ es2)).
  rewrite !sum_entries_cons, IH. simpl. f_equal; lia.
Qed.

Lemma tally_rows_entries (values : list Row) (t : Totals) :
  tally_rows values t = add_entries t (omap row_entry (drop 1 values)).
Proof.
  unfold tally_rows. revert t.
  induction (drop 1 values) as [|row rows IH]; intros t.
  - unfold add_entries. destruct t; simpl. f_equal; lia.
  - cbn [foldl]. rewrite IH, try_tally_row.
    change (omap row_entry (row :: rows))
      with (match row_entry row with
            | Some e => e :: omap row_entry rows
            | None => omap row_entry rows
            end).
    destruct (row_entry row) as [[c a]|]; [|done].
    unfold add_entries. rewrite sum_entries_cons.
    cbn [total_count total_amount fst snd]. f_equal; lia.
Qed.

Lemma get_today_stats_entries (today : date) (w : World) :
  eval (get_today_stats today) w =
    sum_entries (omap row_entry (transaction_rows today w)).
Proof.
  unfold get_today_stats, transaction_rows, day_ledger.
  destruct (get_today_worksheet_spec today w) as (ws & sh & Hrun & Hws & _ & Hl).
  run_app. rewrite Hrun. simpl.
  pose proof (ledger_values _ _ _ Hws) as Hv.
  rewrite Hl, decide_True in Hv by done.
  assert (drop 1 (get_all_values ws sh)
          = drop 1 (default [] (ledger (isoformat today) (book w)))) as Hd.
  { injection Hv as <-. by destruct (ledger (isoformat today) (book w)). }
  case_decide as Hlen; simpl.
  - rewrite <- Hd.
    by destruct (get_all_values ws sh) as [|? [|??]]; simpl in *; try lia.
  - by rewrite tally_rows_entries, Hd.
Qed.

Lemma foldl_snoc_omap {A B} (f : A → option B) (l : list A) (acc : list B) :
  foldl (λ acc x, match f x with Some y => acc ++ [y] | None => acc end) acc l
  = acc ++ omap f l.
Proof.
  revert acc. induction l as [|x l IH]; intros acc; simpl.
  - by rewrite app_nil_r.
  - rewrite IH. destruct (f x); [|done]. by rewrite <- app_assoc.
Qed.

Lemma foldl_pointwise {A B} (f g : A → B → A) (l : list B) (a : A) :
  (∀ a b, f a b = g a b) → foldl f a l = foldl g a l.
Proof.
  intros Hfg. revert a. induction l as [|b l IH]; intros a; simpl; [done|].
  by rewrite Hfg, IH.
Qed.

Lemma date_sheets_dated_tabs (sh : Spreadsheet) :
  foldl (λ acc ws, match fromisoformat (ws_title ws sh) with
                   | Some d => acc ++ [(d, ws)]
                   | None => acc
                   end) [] (worksheets sh)
  = dated_tabs sh.
Proof.
  unfold dated_tabs.
  rewrite <- (app_nil_l (omap _ _)), <- foldl_snoc_omap.
  apply foldl_pointwise. intros acc ws. simpl.
  by destruct (fromisoformat (ws_title ws sh)).
Qed.

Lemma py_slice_from_last {A} (n : Z) (l : list A) :
  (1 ≤ n)%Z → py_slice_from (- n) l = drop (length l - Z.to_nat n) l.
Proof.
  intros Hn. unfold py_slice_from. rewrite decide_True by lia.
  f_equal. lia.
Qed.

Lemma py_index_first {A} (l : list A) : py_index l 0 = head l.
Proof. unfold py_index. simpl. by destruct l. Qed.

Lemma py_index_final {A} (l : list A) : py_index l (-1) = last l.
Proof.
  unfold py_index. rewrite decide_True by lia.
  destruct l as [|x l]; [done|].
  rewrite decide_True by (simpl; lia).
  rewrite last_lookup. f_equal. simpl. lia.
Qed.

Lemma tabs_tally (sh : Spreadsheet) (sel : list (date * nat)) (t : Totals) :
  foldl (λ t '(_, ws),
           let values := get_all_values ws sh in
           if decide (length values ≤ 1) then t else tally_rows values t)
        t sel
  = add_entries t (sel ≫= λ s, tab_entries sh s.2).
Proof.
  assert (∀ t ws,
            (if decide (length (get_all_values ws sh) ≤ 1) then t
             else tally_rows (get_all_values ws sh) t)
            = add_entries t (tab_entries sh ws)) as Hstep.
  { intros t' ws. unfold tab_entries.
    case_decide as Hlen; [|apply tally_rows_entries].
    destruct (get_all_values ws sh) as [|? [|??]]; simpl in *; try lia;
      unfold add_entries; destruct t'; simpl; f_equal; lia. }
  revert t. induction sel as [|[d ws] sel IH]; intros t.
  - unfold add_entries. destruct t; simpl. f_equal; lia.
  - cbn [foldl]. rewrite IH. cbv zeta. rewrite Hstep.
    change (((d, ws) :: sel) ≫= λ s, tab_entries sh s.2)
      with (tab_entries sh ws ++ (sel ≫= λ s, tab_entries sh s.2)).
    unfold add_entries. rewrite sum_entries_app.
    cbn [total_count total_amount fst snd]. f_equal; lia.
Qed.

Lemma window_length (n : nat) (sh : Spreadsheet) :
  length (window n sh) = n `min` length (dated_tabs sh).
Proof.
  unfold window, by_date. rewrite length_drop, py_sort_length. lia.
Qed.

(** For a window of at least one day the report is the specified one. *)
Lemma last_n_days_period (n : Z) (sh : Spreadsheet) :
  (1 ≤ n)%Z → last_n_days n sh = inr (period_stats (Z.to_nat n) sh).
Proof.
  intros Hn. unfold last_n_days, period_stats.
  rewrite date_sheets_dated_tabs.
  pose proof (window_length (Z.to_nat n) sh) as Hlen.
  case_decide as Hnil.
  - rewrite Hnil in Hlen. simpl in Hlen. rewrite Nat.min_0_r in Hlen.
    by destruct (window (Z.to_nat n) sh).
  - fold (by_date sh). rewrite py_slice_from_last by done.
    fold (window (Z.to_nat n) sh).
    rewrite tabs_tally, py_index_first, py_index_final.
    destruct (window (Z.to_nat n) sh) as [|first rest].
    { destruct (dated_tabs sh); [done|]. simpl in Hlen. lia. }
    cbn [head].
    destruct (last (first :: rest)) as [final|] eqn:El;
      [|by apply last_None in El].
    cbn [default]. unfold add_entries. cbn [total_count total_amount].
    by destruct (sum_entries _).
Qed.

(** The confirm branch of [main] on a basket that is not empty. *)
Lemma btn_confirm_main_spec (today : date) (now : datetime) (w : World) :
  basket w ≠ [] →
  let b := basket w in
  let w' := exec (btn_confirm_main today now) w in
  let row := [strftime_HMS now; isoformat (dt_date now);
              pretty (Z.of_nat (length b)); pretty (sumZ b); detail_of b] in
  basket w' = []
  ∧ ∀ n, ledger n (book w') =
      if decide (n = isoformat today)
      then Some (default [header_row] (ledger n (book w)) ++ [row])
      else ledger n (book w).
Proof.
  intros Hb b w' row.
  destruct (save_transaction_spec b today now w Hb) as (_ & _ & Hl).
  assert (book w' = book (exec (save_transaction b today now) w)
          ∧ basket w' = []) as [Hbook Hbasket].
  { subst w'. unfold btn_confirm_main. run_app.
    rewrite decide_True by done. subst b.
    by destruct (save_transaction (basket w) today now w). }
  split; [done|].
  intros n. rewrite Hbook, Hl. subst row. by rewrite foldl_add_sumZ.
Qed.

(** X10. After a confirmed sale the day report has grown by the size and
    the sum of the basket, provided [int] reads back the two numbers the
    sheet shows for them and the day's tab, when it exists, has its
    header row (in a tab without any row the sale would land in the
    header's place, which no report reads). *)
Lemma today_stats_after_confirm (today : date) (now : datetime) (w : World) :
  basket w ≠ [] →
  day_ledger today w ≠ Some [] →
  py_int (pretty (Z.of_nat (length (basket w))))
    = Some (Z.of_nat (length (basket w))) →
  py_int (pretty (sumZ (basket w))) = Some (sumZ (basket w)) →
  eval (get_today_stats today) (exec (btn_confirm_main today now) w) =
    (((eval (get_today_stats today) w).1 + Z.of_nat (length (basket w)))%Z,
     ((eval (get_today_stats today) w).2 + sumZ (basket w))%Z).
Proof.
  intros Hb Hhdr Hc Ha.
  destruct (btn_confirm_main_spec today now w Hb) as (_ & Hl).
  rewrite !get_today_stats_entries.
  unfold transaction_rows, day_ledger in *.
  rewrite Hl, decide_True by done.
  set (row := [strftime_HMS now; _; _; _; _]).
  assert (row_entry row = Some (Z.of_nat (length (basket w)), sumZ (basket w)))
    as Hrow.
  { unfold row_entry, row. simpl. rewrite Hc. simpl. by rewrite Ha. }
  assert (drop 1 (default [] (Some (default [header_row]
            (ledger (isoformat today) (book w)) ++ [row])))
          = drop 1 (default [] (ledger (isoformat today) (book w))) ++ [row])
    as ->.
  { by destruct (ledger (isoformat today) (book w)) as [[|??]|]. }
  rewrite omap_app, sum_entries_app.
  change (omap row_entry [row])
    with (match row_entry row with Some e => [e] | None => [] end).
  rewrite Hrow. unfold sum_entries at 2 4. simpl. f_equal; lia.
Qed.

(** * The claims *)

(** C1. Confirming a basket that is not empty appends exactly one row to
    the day's ledger (created with its header row when it was absent).
    The row carries the number of items and the sum of the prices in
    decimal, and a detail text that lists, in ascending order of price,
    each distinct price with its multiplicity as [<price>円×<count>],
    the parts joined by a comma and a blank.  Afterwards the basket is
    empty and no other ledger has changed. *)
Theorem confirm_sale_appends_one_row (today : date) (now : datetime) (w : World) :
  basket w ≠ [] →
  let b := basket w in
  let w' := exec (btn_confirm_main today now) w in
  let groups := sorted_items (Counter b) in
  let detail :=
    String.concat ", "
      ((λ g : Z * nat, pretty g.1 +:+ "円×" +:+ pretty g.2) <$> groups) in
  day_ledger today w' =
    Some (default [header_row] (day_ledger today w)
            ++ [[strftime_HMS now; isoformat (dt_date now);
                 pretty (Z.of_nat (length b)); pretty (sumZ b); detail]])
  ∧ (∀ p c, (p, c) ∈ groups ↔ c = occurrences p b ∧ 0 < c)
  ∧ StronglySorted (λ g h : Z * nat, (g.1 < h.1)%Z) groups
  ∧ basket w' = []
  ∧ ∀ n, n ≠ isoformat today → ledger n (book w') = ledger n (book w).
Proof.
  intros Hb b w' groups detail.
  destruct (btn_confirm_main_spec today now w Hb) as (Hbasket & Hl).
  split_and!; try done.
  - unfold day_ledger. rewrite Hl, decide_True by done.
    subst detail groups b. by rewrite detail_of_groups.
  - intros p c. subst groups. rewrite sorted_items_elem, Counter_lookup.
    case_decide as Hz; split.
    + discriminate.
    + intros [-> ?]. lia.
    + intros [= <-]. split; [done|lia].
    + by intros [-> _].
  - apply sorted_items_ascending.
  - intros n Hn. by rewrite Hl, decide_False.
Qed.

(** C2. Confirming a basket that is not empty and voiding at once, on the
    same day, leaves the day's number of Transaction Rows as it was before
    the confirmation, and the basket empty.  A ledger that had its header
    row is restored row for row; one that was absent is left with its
    header row alone. *)
Theorem confirm_then_void_restores_row_count (today : date) (now : datetime)
    (w : World) :
  basket w ≠ [] →
  let w2 := exec (btn_cancel_main today) (exec (btn_confirm_main today now) w) in
  length (transaction_rows today w2) = length (transaction_rows today w)
  ∧ basket w2 = []
  ∧ (∀ rows, day_ledger today w = Some rows → rows ≠ [] →
       day_ledger today w2 = Some rows)
  ∧ (day_ledger today w = None → day_ledger today w2 = Some [header_row]).
Proof.
  intros Hb w2.
  destruct (btn_confirm_main_spec today now w Hb) as (Hb1 & Hl1).
  specialize (Hl1 (isoformat today)). rewrite decide_True in Hl1 by done.
  fold (day_ledger today w) in Hl1.
  set (w1 := exec (btn_confirm_main today now) w) in *.
  fold (day_ledger today w1) in Hl1.
  set (row := [strftime_HMS now; _; _; _; _]) in Hl1. clearbody row.
  destruct (cancel_last_transaction_spec today w1) as (Hbc & Hle & Hgt).
  assert (book w2 = book (exec (cancel_last_transaction today) w1)
          ∧ basket w2 = basket (exec (cancel_last_transaction today) w1))
    as [Hbook Hbasket].
  { subst w2. unfold btn_cancel_main. run_app.
    by destruct (cancel_last_transaction today w1). }
  rewrite Hl1 in Hle, Hgt. simpl in Hle, Hgt.
  set (prior := default [header_row] (day_ledger today w)) in *.
  assert (day_ledger today w2 =
            Some (if decide (prior = []) then [row] else prior)) as Hl2.
  { unfold day_ledger at 1. rewrite Hbook.
    rewrite length_app in Hle, Hgt. simpl in Hle, Hgt.
    destruct (decide (prior = [])) as [E|E].
    - rewrite E in *. simpl in *. destruct Hle as (_ & _ & Hl); [lia|].
      by rewrite Hl, decide_True.
    - assert (0 < length prior) by (destruct prior; [done|simpl; lia]).
      destruct Hgt as (_ & Hl); [lia|].
      rewrite Hl, decide_True by done.
      by rewrite Nat.add_sub, take_app_length. }
  split_and!.
  - unfold transaction_rows. rewrite Hl2. subst prior.
    destruct (day_ledger today w) as [[|hdr rows]|]; done.
  - by rewrite Hbasket, Hbc.
  - intros rows E Hne. rewrite Hl2. subst prior. rewrite E. simpl.
    by rewrite decide_False.
  - intros E. rewrite Hl2. subst prior. by rewrite E.
Qed.

(** C5. Confirming with an empty basket only reports that the basket is
    empty: the spreadsheet is untouched, so the day's rows are the same,
    and the basket is still empty.  [save_transaction] called on an empty
    basket behaves the same way. *)
Theorem confirm_empty_basket_changes_nothing (today : date) (now : datetime)
    (w : World) :
  basket w = [] →
  let w' := exec (btn_confirm_main today now) w in
  let w'' := exec (save_transaction [] today now) w in
  w' = Mk_World (book w) [] (shown w ++ [(Warning, "カゴが空です。")])
  ∧ w'' = w'
  ∧ length (transaction_rows today w') = length (transaction_rows today w).
Proof.
  destruct w as [sh b ns]. simpl. intros ->.
  unfold btn_confirm_main, save_transaction. by run_app.
Qed.

(** C6 (amended). Voiding never touches the basket nor any other day's
    ledger.  When the day has no Transaction Rows it reports that there is
    no sale yet and removes nothing: a ledger that exists is left as it is,
    and a ledger that was absent is created holding its header row only.
    When the day has Transaction Rows, exactly the last row is deleted. *)
Theorem void_last_sale_effect (today : date) (w : World) :
  let w' := exec (cancel_last_transaction today) w in
  basket w' = basket w
  ∧ (transaction_rows today w = [] →
       shown w' = shown w ++ [(Warning, "まだ会計データがありません。")]
       ∧ (day_ledger today w ≠ None → book w' = book w)
       ∧ (day_ledger today w = None → day_ledger today w' = Some [header_row])
       ∧ transaction_rows today w' = [])
  ∧ (∀ hdr rows r, day_ledger today w = Some (hdr :: rows ++ [r]) →
       day_ledger today w' = Some (hdr :: rows)
       ∧ shown w' = shown w ++ [(Success, "直前の会計を取り消しました。")])
  ∧ ∀ n, n ≠ isoformat today → ledger n (book w') = ledger n (book w).
Proof.
  intros w'. destruct (cancel_last_transaction_spec today w) as (Hb & Hle & Hgt).
  fold w' in Hb, Hle, Hgt.
  split_and!; [done| | |].
  - unfold transaction_rows. intros E.
    destruct Hle as (Hs & Hsame & Hl).
    { destruct (day_ledger today w) as [[|? [|??]]|]; simpl in *; done || lia. }
    split_and!; [done|done| |].
    + intros E'. unfold day_ledger at 1. rewrite Hl, decide_True by done.
      by rewrite E'.
    + unfold day_ledger at 1. rewrite Hl, decide_True by done.
      by destruct (day_ledger today w) as [[|? [|??]]|].
  - intros hdr rows r E. rewrite E in Hgt.
    change (default [header_row] (Some (hdr :: rows ++ [r])))
      with ((hdr :: rows) ++ [r]) in Hgt.
    rewrite length_app in Hgt.
    destruct Hgt as (Hs & Hl); [simpl; lia|]. split; [|done].
    unfold day_ledger at 1. rewrite Hl, decide_True by done.
    by rewrite Nat.add_sub, take_app_length.
  - intros n Hn.
    destruct (decide (length (default [header_row] (day_ledger today w)) ≤ 1)).
    + destruct Hle as (_ & _ & Hl); [done|]. by rewrite Hl, decide_False.
    + destruct Hgt as (_ & Hl); [lia|]. by rewrite Hl, decide_False.
Qed.

Lemma sumZ_perm (b1 b2 : list Z) : b1 ≡ₚ b2 → sumZ b1 = sumZ b2.
Proof.
  unfold sumZ. induction 1; simpl; lia.
Qed.

(** C8. Two baskets holding the same prices in a different order get the
    same detail text; indeed confirming either one from the same state
    ends in the same state.  The basket 300, 200, 300 is rendered as
    [200円×1, 300円×2]. *)
Theorem detail_ignores_basket_order (b1 b2 : list Z) (today : date)
    (now : datetime) (sh : Spreadsheet) (ns : list Notice) :
  b1 ≡ₚ b2 →
  detail_of b1 = detail_of b2
  ∧ exec (btn_confirm_main today now) (Mk_World sh b1 ns)
    = exec (btn_confirm_main today now) (Mk_World sh b2 ns)
  ∧ detail_of [300; 200; 300]%Z = "200円×1, 300円×2".
Proof.
  intros Hp.
  assert (detail_of b1 = detail_of b2) as Hd.
  { unfold detail_of. by rewrite (Counter_perm b1 b2 Hp). }
  split_and!; [done| |by vm_compute].
  unfold btn_confirm_main. run_app.
  destruct (decide (b1 = [])) as [->|Hne].
  { apply Permutation_nil_l in Hp. by subst. }
  assert (b2 ≠ []) as Hne2.
  { intros ->. by apply Permutation_nil_r in Hp. }
  rewrite !decide_True by done.
  unfold save_transaction. rewrite !decide_False by done. run_app.
  rewrite Hd, !foldl_add_sumZ, (sumZ_perm b1 b2 Hp), (Permutation_length Hp).
  unfold get_today_worksheet. run_app.
  by destruct (worksheet (isoformat today) sh).
Qed.

(** C9. The discount price input is unlocked exactly when the entered
    password equals the configured one, and only then can the discount
    button add its price to the basket.  The notice that the password is
    wrong is put on screen exactly when the entered text is not empty and
    differs from the configured password.  The spreadsheet is not
    involved. *)
Theorem special_discount_authorization (pwd : string) (btn_special : option Z)
    (w : World) :
  let unlocked := eval (pwd_special pwd btn_special) w in
  let w' := exec (pwd_special pwd btn_special) w in
  (unlocked = true ↔ pwd = DISCOUNT_PASSWORD)
  ∧ (shown w' = shown w ++ [(Error, "パスワードが違います。")]
     ↔ pwd ≠ "" ∧ pwd ≠ DISCOUNT_PASSWORD)
  ∧ (shown w' = shown w ↔ ¬ (pwd ≠ "" ∧ pwd ≠ DISCOUNT_PASSWORD))
  ∧ basket w' =
      basket w ++ (if decide (pwd = DISCOUNT_PASSWORD)
                   then option_list btn_special else [])
  ∧ book w' = book w.
Proof.
  assert (∀ (l : list Notice) x, l ++ [x] ≠ l) as Hsnoc.
  { intros l x E. apply (f_equal length) in E.
    rewrite length_app in E. simpl in E. lia. }
  assert (∀ (l : list Notice) x, l ≠ l ++ [x]) as Hsnoc'.
  { intros l x E. by apply (Hsnoc l x). }
  unfold pwd_special, basket_append. run_app.
  destruct (decide (pwd = DISCOUNT_PASSWORD)) as [Heq|Hne].
  - assert (¬ (pwd ≠ "" ∧ pwd ≠ DISCOUNT_PASSWORD)) as Hno by (by intros [_ ?]).
    destruct btn_special; simpl; rewrite ?app_nil_r;
      (split_and!; [done| | |done|done]); split; try done;
      intros E; by apply Hsnoc' in E.
  - destruct (decide (pwd ≠ "")) as [Hs|Hs]; simpl; rewrite ?app_nil_r;
      (split_and!; [done| | |done|done]); split; try done.
    + intros E. by apply Hsnoc in E.
    + intros Hno. by destruct Hno.
    + intros E. by apply Hsnoc' in E.
    + by intros [? _].
    + by intros _ [? _].
Qed.

Lemma date_le_not_ltb (a b : date) : date_ltb b a = false ↔ date_le a b.
Proof.
  unfold date_ltb, date_le. destruct a, b; simpl.
  repeat case_decide; subst; rewrite ?bool_decide_eq_false; lia.
Qed.

Lemma StronglySorted_weaken {A} (R S : A → A → Prop) (l : list A) :
  (∀ a b, R a b → S a b) → StronglySorted R l → StronglySorted S l.
Proof.
  intros HRS. induction 1 as [|x l Hl IH Hx]; constructor; [done|].
  eapply Forall_impl; [exact Hx|]. intros y. apply HRS.
Qed.

Lemma dated_tabs_elem (sh : Spreadsheet) (d : date) (ws : nat) :
  (d, ws) ∈ dated_tabs sh ↔
    ∃ x, sh !! ws = Some x ∧ fromisoformat (title x) = Some d.
Proof.
  unfold dated_tabs, worksheets. rewrite list_elem_of_omap. split.
  - intros (h & Hh & E). apply elem_of_seq in Hh as [_ Hh]. simpl in Hh.
    destruct (lookup_lt_is_Some_2 sh h Hh) as [x Hx].
    unfold ws_title in E. rewrite Hx in E. simpl in E.
    destruct (fromisoformat (title x)) eqn:E'; simplify_eq/=. eauto.
  - intros (x & Hx & E). exists ws. split.
    + apply elem_of_seq. split; [lia|]. simpl. by eapply lookup_lt_Some.
    + unfold ws_title. rewrite Hx. simpl. by rewrite E.
Qed.

(** C3. For a window of [n ≥ 1] days the period report never fails and
    never writes.  The tabs it considers are exactly those whose title
    parses as a date; it orders them by ascending date, keeps the last [n]
    of them (all of them when there are fewer), and adds up count and
    amount over the rows of the kept tabs that have both fields readable.
    With no dated tab the answer is (0, 0, none, none); otherwise it is
    the two sums with the ISO form of the first and of the last kept
    date. *)
Theorem period_stats_over_last_dated_tabs (n : Z) (sh : Spreadsheet) :
  (1 ≤ n)%Z →
  let sel := window (Z.to_nat n) sh in
  last_n_days n sh = inr (period_stats (Z.to_nat n) sh)
  ∧ (∀ d ws, (d, ws) ∈ dated_tabs sh ↔
       ∃ x, sh !! ws = Some x ∧ fromisoformat (title x) = Some d)
  ∧ by_date sh ≡ₚ dated_tabs sh
  ∧ StronglySorted (λ a b : date * nat, date_le a.1 b.1) (by_date sh)
  ∧ (∃ older, by_date sh = older ++ sel)
  ∧ length sel = Z.to_nat n `min` length (dated_tabs sh)
  ∧ (dated_tabs sh = [] → period_stats (Z.to_nat n) sh = (0%Z, 0%Z, None, None))
  ∧ (∀ first rest, sel = first :: rest →
       period_stats (Z.to_nat n) sh =
         ((sum_entries (sel ≫= λ s, tab_entries sh s.2)).1,
          (sum_entries (sel ≫= λ s, tab_entries sh s.2)).2,
          Some (isoformat first.1),
          Some (isoformat (default first (last sel)).1)))
  ∧ ∀ w, get_last_n_days_stats n w = (last_n_days n (book w), w).
Proof.
  intros Hn sel.
  split_and!.
  - by apply last_n_days_period.
  - apply dated_tabs_elem.
  - apply py_sort_perm.
  - eapply StronglySorted_weaken;
      [|apply (py_sort_sorted date_ltb fst date_ltb_asym date_not_ltb_trans)].
    intros a b. apply date_le_not_ltb.
  - exists (take (length (by_date sh) - Z.to_nat n) (by_date sh)).
    subst sel. unfold window. by rewrite take_drop.
  - apply window_length.
  - intros E. unfold period_stats, window, by_date. by rewrite E.
  - intros first rest E. unfold period_stats. fold sel. rewrite E at 1.
    by destruct (sum_entries _).
  - done.
Qed.

(** C4. The day report adds up the count and the amount fields of the
    rows after the header row, leaving out every row in which one of the
    two fields is missing or does not read as an integer; it never fails.
    For a ledger that holds one unreadable row and one row with count 2
    and amount 600 the report is (2, 600). *)
Theorem today_stats_sums_readable_rows (today : date) (w : World) :
  eval (get_today_stats today) w =
    sum_entries (omap row_entry (transaction_rows today w))
  ∧ ∀ hdr bad good,
      row_entry bad = None → row_entry good = Some (2%Z, 600%Z) →
      day_ledger today w = Some [hdr; bad; good]
      ∨ day_ledger today w = Some [hdr; good; bad] →
      eval (get_today_stats today) w = (2%Z, 600%Z).
Proof.
  split; [apply get_today_stats_entries|].
  intros hdr bad good Hbad Hgood Hl. rewrite get_today_stats_entries.
  unfold transaction_rows.
  destruct Hl as [-> | ->]; simpl; by rewrite Hbad, Hgood.
Qed.

(** The period report reads nothing of the book but the titles and, per
    tab, the readable entries. *)
Lemma period_stats_ext (n : nat) (sh sh' : Spreadsheet) :
  length sh = length sh' →
  (∀ ws, ws_title ws sh = ws_title ws sh') →
  (∀ ws, tab_entries sh ws = tab_entries sh' ws) →
  period_stats n sh = period_stats n sh'.
Proof.
  intros Hlen Ht He.
  assert (dated_tabs sh = dated_tabs sh') as Hd.
  { unfold dated_tabs, worksheets. rewrite Hlen.
    apply list_omap_ext, Forall2_same_length_lookup_2; [done|].
    intros i x y Hx Hy. simplify_eq. by rewrite Ht. }
  unfold period_stats, window, by_date. rewrite Hd.
  set (sel := drop _ _).
  assert ((sel ≫= λ s, tab_entries sh s.2) = (sel ≫= λ s, tab_entries sh' s.2))
    as ->; [|done].
  apply list_bind_ext; [|done]. intros s. apply He.
Qed.

Lemma omap_drop_unreadable (row : Row) (before after : list Row) :
  row_entry row = None →
  omap row_entry (before ++ row :: after) = omap row_entry (before ++ after).
Proof.
  intros E. rewrite !omap_app.
  change (omap row_entry (row :: after))
    with (match row_entry row with
          | Some e => e :: omap row_entry after
          | None => omap row_entry after
          end).
  by rewrite E.
Qed.

(** C10. A row is counted whole or not at all.  In particular a row whose
    count field reads as an integer while its amount field is missing or
    unreadable adds nothing to either total: the day report and the
    period report are what they would be without that row. *)
Theorem half_read_row_adds_nothing (row : Row) (c : Z) :
  row !! 2 ≫= py_int = Some c →
  row !! 3 ≫= py_int = None →
  (∀ t, try_continue (tally_row row) t = t)
  ∧ (∀ r t, try_continue (tally_row r) t = t
            ∨ ∃ c' a', row_entry r = Some (c', a')
                       ∧ try_continue (tally_row r) t
                         = Mk_Totals (total_count t + c') (total_amount t + a'))
  ∧ (∀ hdr before after t,
       tally_rows (hdr :: before ++ row :: after) t
       = tally_rows (hdr :: before ++ after) t)
  ∧ (∀ today w hdr before after,
       day_ledger today w = Some (hdr :: before ++ row :: after) →
       eval (get_today_stats today) w
       = sum_entries (omap row_entry (before ++ after)))
  ∧ (∀ n sh ws hdr before after,
       (1 ≤ n)%Z →
       get_all_values ws sh = hdr :: before ++ row :: after →
       last_n_days n sh
       = last_n_days n
           (alter (with_values (λ _, hdr :: before ++ after)) ws sh)).
Proof.
  intros Hc Ha.
  assert (row_entry row = None) as Hrow.
  { unfold row_entry. by rewrite Hc, Ha. }
  split_and!.
  - intros t. by rewrite try_tally_row, Hrow.
  - intros r t. rewrite try_tally_row.
    destruct (row_entry r) as [[c' a']|]; [|by left].
    right. by exists c', a'.
  - intros hdr before after t. rewrite !tally_rows_entries.
    change (drop 1 (hdr :: before ++ row :: after))
      with (before ++ row :: after).
    change (drop 1 (hdr :: before ++ after)) with (before ++ after).
    by rewrite omap_drop_unreadable.
  - intros today w hdr before after Hl.
    rewrite get_today_stats_entries. unfold transaction_rows.
    rewrite Hl.
    change (drop 1 (default [] (Some (hdr :: before ++ row :: after))))
      with (before ++ row :: after).
    by rewrite omap_drop_unreadable.
  - intros n sh ws hdr before after Hn Hv.
    rewrite !last_n_days_period by done. f_equal.
    apply period_stats_ext.
    + by rewrite length_alter.
    + intros h. unfold ws_title. rewrite list_lookup_alter.
      case_decide; [subst|done]. by destruct (sh !! h).
    + intros h. unfold tab_entries. rewrite get_all_values_alter.
      case_decide as Hh; [|done]. destruct Hh as [-> _].
      rewrite Hv.
      change (drop 1 (hdr :: before ++ row :: after))
        with (before ++ row :: after).
      change (drop 1 (hdr :: before ++ after)) with (before ++ after).
      by rewrite omap_drop_unreadable.
Qed.

(** * The life of a Day Ledger *)

(** What one action can do to the tab called [n]: nothing, create it with
    its header row, append one row to it (creating it first when needed),
    or, for a void only, drop the last of its at least two rows. *)
Lemma run_op_ledger (op : Op) (w : World) (n : string) :
  let old := ledger n (book w) in
  let prior := default [header_row] old in
  let new := ledger n (book (exec (run_op op) w)) in
  new = old
  ∨ new = Some prior
  ∨ (∃ row, new = Some (prior ++ [row]))
  ∨ ((∃ today, op = VoidLast today) ∧ 1 < length prior
     ∧ new = Some (take (length prior - 1) prior)).
Proof.
  intros old prior new. subst new.
  destruct op as [| |value|pwd btn| |today now|today|today|k];
    unfold run_op.
  - by left.
  - by left.
  - by left.
  - left. unfold pwd_special, basket_append. run_app.
    repeat case_decide; try destruct btn; done.
  - by left.
  - unfold btn_confirm_main. run_app.
    destruct (decide (basket w ≠ [])) as [Hb|Hb]; [|by left].
    destruct (save_transaction_spec (basket w) today now w Hb) as (_ & _ & Hl).
    assert (book (let '(_, w') := save_transaction (basket w) today now w in
                  (tt, Mk_World (book w') []
                         (shown w' ++ [(Success, "会計を保存しました。")]))).2
            = book (exec (save_transaction (basket w) today now) w)) as ->.
    { unfold exec. by destruct (save_transaction (basket w) today now w). }
    rewrite Hl. case_decide; [|by left]. right. right. left. eauto.
  - unfold btn_cancel_main. run_app.
    destruct (cancel_last_transaction_spec today w) as (_ & Hle & Hgt).
    assert (book (let '(_, w') := cancel_last_transaction today w in
                  (tt, Mk_World (book w') (basket w')
                         (shown w' ++ [(Info, "直前の会計を取り消しました。")]))).2
            = book (exec (cancel_last_transaction today) w)) as ->.
    { unfold exec. by destruct (cancel_last_transaction today w). }
    unfold day_ledger in Hle, Hgt.
    destruct (decide (n = isoformat today)) as [->|Hn].
    + fold old prior in Hle, Hgt.
      destruct (decide (length prior ≤ 1)) as [Hlen|Hlen].
      * destruct Hle as (_ & _ & Hl); [done|].
        rewrite Hl, decide_True by done. by right; left.
      * destruct Hgt as (_ & Hl); [lia|].
        rewrite Hl, decide_True by done. right. right. right.
        split_and!; [by eexists|lia|done].
    + left.
      destruct (decide (length (default [header_row]
                                  (ledger (isoformat today) (book w))) ≤ 1)).
      * destruct Hle as (_ & _ & Hl); [done|]. by rewrite Hl, decide_False.
      * destruct Hgt as (_ & Hl); [lia|]. by rewrite Hl, decide_False.
  - unfold get_today_stats.
    destruct (get_today_worksheet_spec today w) as (ws & sh & Hrun & _ & _ & Hl).
    run_app. rewrite Hrun. simpl.
    case_decide; simpl; rewrite Hl; (case_decide; [subst; by right; left|by left]).
  - by left.
Qed.

Lemma run_op_transition (name : string) (op : Op) (w : World) :
  transition_ok op (ledger_state (ledger name (book w)))
                   (ledger_state (ledger name (book (exec (run_op op) w)))).
Proof.
  destruct (run_op_ledger op w name) as [E|[E|[[row E]|(Hop & Hlen & E)]]];
    rewrite E; clear E.
  - by left.
  - left. destruct (ledger name (book w)); simpl; [done|lia].
  - left. destruct (ledger name (book w)) as [rows|]; [|simpl; lia].
    unfold ledger_state. simpl. rewrite length_app. simpl.
    repeat case_decide; simpl; lia.
  - destruct (ledger name (book w)) as [rows|]; simpl in *; [|lia].
    unfold transition_ok, ledger_state. rewrite length_take.
    rewrite (decide_False (P := length rows ≤ 1)) by lia.
    case_decide; [by right|by left].
Qed.

Lemma run_op_keeps_header (name : string) (op : Op) (w : World) (hdr : Row) :
  ledger name (book w) ≫= head = Some hdr →
  ledger name (book (exec (run_op op) w)) ≫= head = Some hdr.
Proof.
  intros Hh.
  destruct (run_op_ledger op w name) as [E|[E|[[row E]|(Hop & Hlen & E)]]];
    rewrite E; clear E; [done|..];
    destruct (ledger name (book w)) as [[|h rows]|]; simplify_eq/=; try done.
  destruct rows; simpl in *; [lia|done].
Qed.

Lemma run_ops_snoc (ops : list Op) (op : Op) (w : World) :
  run_ops (ops ++ [op]) w = exec (run_op op) (run_ops ops w).
Proof. unfold run_ops. by rewrite foldl_app. Qed.

Lemma run_ops_keep_header (name : string) (ops : list Op) (w : World) (hdr : Row) :
  ledger name (book w) ≫= head = Some hdr →
  ledger name (book (run_ops ops w)) ≫= head = Some hdr.
Proof.
  induction ops as [|op ops IH] using rev_ind; [done|].
  intros Hh. rewrite run_ops_snoc. by apply run_op_keeps_header, IH.
Qed.

(** C7. Along every sequence of actions and reports, each step either
    keeps the state of a Day Ledger or moves it forward in the order
    Absent, HeaderOnly, HasRows; the one step back is a void taking
    HasRows to HeaderOnly.  A ledger never becomes absent again, and a
    header row, once there, stays the first row whatever is done. *)
Theorem day_ledger_lifecycle (name : string) (ops : list Op) (op : Op)
    (w : World) :
  let before := ledger name (book (run_ops ops w)) in
  let after := ledger name (book (run_ops (ops ++ [op]) w)) in
  transition_ok op (ledger_state before) (ledger_state after)
  ∧ (ledger_state after = Absent → ledger_state before = Absent)
  ∧ (∀ hdr, before ≫= head = Some hdr → after ≫= head = Some hdr)
  ∧ (∀ hdr, ledger name (book w) ≫= head = Some hdr →
       after ≫= head = Some hdr).
Proof.
  intros before after. subst before after. rewrite run_ops_snoc.
  pose proof (run_op_transition name op (run_ops ops w)) as Ht.
  split_and!.
  - done.
  - intros E. rewrite E in Ht. destruct Ht as [Ht|(_ & _ & ?)]; [|done].
    destruct (ledger_state (ledger name (book (run_ops ops w))));
      simpl in Ht; done || lia.
  - intros hdr. apply run_op_keeps_header.
  - intros hdr Hh. by apply run_op_keeps_header, run_ops_keep_header.
Qed.

(** * Further properties of the register *)

(** ** The day's tab *)

Lemma get_today_worksheet_run (today : date) (w : World) :
  get_today_worksheet today w =
    match worksheet (isoformat today) (book w) with
    | Some ws => (ws, w)
    | None =>
        (length (book w),
         Mk_World (book w ++ [Sheet (isoformat today) [header_row]])
                  (basket w) (shown w))
    end.
Proof.
  unfold get_today_worksheet, add_worksheet, append_row. run_app.
  destruct (worksheet (isoformat today) (book w)); [by destruct w|].
  by rewrite alter_snoc.
Qed.

(** X1. Asking for the day's tab a second time changes nothing and yields
    the same tab.  A tab that exists is handed out as it is; a missing one
    is added after all other tabs, holding the header row and nothing
    else. *)
Theorem get_today_worksheet_idempotent (today : date) (w : World) :
  let w1 := exec (get_today_worksheet today) w in
  get_today_worksheet today w1 = (eval (get_today_worksheet today) w, w1)
  ∧ (day_ledger today w ≠ None → w1 = w)
  ∧ (day_ledger today w = None →
       w1 = Mk_World (book w ++ [Sheet (isoformat today) [header_row]])
                     (basket w) (shown w)).
Proof.
  unfold exec, eval, day_ledger. rewrite (get_today_worksheet_run today w).
  destruct (worksheet (isoformat today) (book w)) as [ws|] eqn:E.
  - cbn [fst snd]. rewrite get_today_worksheet_run, E.
    split_and!; [done|done|].
    intros H. apply worksheet_ledger in H. congruence.
  - cbn [fst snd]. rewrite get_today_worksheet_run. cbn [book].
    rewrite worksheet_snoc, E, decide_True by done.
    split_and!; [done| |done].
    intros H. by apply worksheet_ledger in E.
Qed.

Lemma titles_alter (f : list Row → list Row) (i : nat) (sh : Spreadsheet) :
  title <$> alter (with_values f) i sh = title <$> sh.
Proof.
  rewrite (list_fmap_alter title (with_values f) id).
  - by apply list_alter_id.
  - by apply Forall_forall.
Qed.

Lemma worksheet_None_title (name : string) (sh : Spreadsheet) :
  worksheet name sh = None ↔ name ∉ title <$> sh.
Proof.
  induction sh as [|x sh IH].
  { split; [|done]. intros _. apply not_elem_of_nil. }
  rewrite worksheet_cons, fmap_cons, not_elem_of_cons.
  destruct (decide (title x = name)) as [E|E].
  - split; [done|]. by intros [? _].
  - destruct (worksheet name sh); simpl.
    + split; [done|]. intros [_ H]. by apply IH in H.
    + split; [|done]. intros _. split; [done|]. by apply IH.
Qed.

(** What one action does to the list of tab titles: nothing, or one title
    that was not there is added at the end. *)
Lemma run_op_titles (op : Op) (w : World) :
  let ts := (title <$> book w) in
  let ts' := (title <$> book (exec (run_op op) w)) in
  ts' = ts ∨ ∃ name, (name ∉ ts) ∧ ts' = ts ++ [name].
Proof.
  assert (∀ today,
            let ts := (title <$> book w) in
            let ts' := (title <$> book (exec (get_today_worksheet today) w)) in
            ts' = ts ∨ ∃ name, (name ∉ ts) ∧ ts' = ts ++ [name]) as Htab.
  { intros today. unfold exec. rewrite get_today_worksheet_run.
    destruct (worksheet (isoformat today) (book w)) eqn:E; [by left|].
    right. exists (isoformat today). split; [by apply worksheet_None_title|].
    cbn [snd book]. by rewrite fmap_app. }
  destruct op as [| |value|pwd btn| |today now|today|today|k];
    unfold run_op.
  - by left.
  - by left.
  - by left.
  - left. unfold pwd_special, basket_append. run_app.
    repeat case_decide; try destruct btn; done.
  - by left.
  - unfold btn_confirm_main, save_transaction. run_app.
    destruct (decide (basket w ≠ [])) as [Hb|Hb]; [|by left].
    rewrite decide_False by done. run_app.
    specialize (Htab today). unfold exec in Htab.
    destruct (get_today_worksheet today w) as [ws w1]. simpl in *.
    unfold append_row. by rewrite titles_alter.
  - unfold btn_cancel_main, cancel_last_transaction. run_app.
    specialize (Htab today). unfold exec in Htab.
    destruct (get_today_worksheet today w) as [ws w1]. simpl in *.
    case_decide; simpl; [done|].
    unfold delete_rows. destruct (length _); [done|]. by rewrite titles_alter.
  - unfold get_today_stats. run_app.
    specialize (Htab today). unfold exec in Htab.
    destruct (get_today_worksheet today w) as [ws w1]. simpl in *.
    by case_decide.
  - by left.
Qed.

(** X2. Whatever the operator does, in whatever order, no tab is removed,
    renamed or moved, and no second tab with a title already present is
    created: a spreadsheet whose tab titles are all different stays so. *)
Theorem tabs_are_only_ever_added (ops : list Op) (w : World) :
  (∃ added, title <$> book (run_ops ops w) = (title <$> book w) ++ added)
  ∧ (titles_unique (book w) → titles_unique (book (run_ops ops w))).
Proof.
  induction ops as [|op ops [[added IH1] IH2]] using rev_ind.
  - split; [|done]. exists []. by rewrite app_nil_r.
  - rewrite run_ops_snoc. unfold titles_unique in *.
    destruct (run_op_titles op (run_ops ops w)) as [E|(name & Hn & E)];
      rewrite E.
    + split; [by exists added|done].
    + split.
      * exists (added ++ [name]). by rewrite IH1, app_assoc.
      * intros Hu. apply NoDup_app. split_and!; [by apply IH2| |].
        -- intros t Ht Hin. apply list_elem_of_singleton in Hin. by subst.
        -- apply NoDup_singleton.
Qed.

(** ** The day report *)

(** X3. The day report writes nothing into a ledger: all it may do to the
    spreadsheet is to create the day's tab with its header row.  Read a
    second time it gives the same answer, and for a day without
    Transaction Rows that answer is (0, 0). *)
Theorem get_today_stats_only_reads (today : date) (w : World) :
  exec (get_today_stats today) w = exec (get_today_worksheet today) w
  ∧ eval (get_today_stats today) (exec (get_today_stats today) w)
    = eval (get_today_stats today) w
  ∧ (transaction_rows today w = [] →
       eval (get_today_stats today) w = (0%Z, 0%Z)).
Proof.
  assert (exec (get_today_stats today) w = exec (get_today_worksheet today) w)
    as Hex.
  { unfold get_today_stats. run_app.
    destruct (get_today_worksheet today w) as [ws w1]. simpl.
    by case_decide. }
  split_and!; [done| |].
  - rewrite !get_today_stats_entries, Hex. unfold transaction_rows, day_ledger.
    destruct (get_today_worksheet_spec today w) as (ws & sh & Hrun & _ & _ & Hl).
    unfold exec. rewrite Hrun. cbn [snd book].
    rewrite Hl, decide_True by done.
    by destruct (ledger (isoformat today) (book w)).
  - intros E. by rewrite get_today_stats_entries, E.
Qed.

Lemma sum_entries_perm (es1 es2 : list (Z * Z)) :
  es1 ≡ₚ es2 → sum_entries es1 = sum_entries es2.
Proof.
  intros Hp. unfold sum_entries.
  f_equal; apply sumZ_perm; by rewrite Hp.
Qed.

(** X4. The day report does not depend on the order of the rows below the
    header, nor on what the header row holds: two ledgers whose
    Transaction Rows are the same up to order give the same report. *)
Theorem day_report_ignores_row_order (today today' : date) (w w' : World)
    (hdr hdr' : Row) (rows rows' : list Row) :
  day_ledger today w = Some (hdr :: rows) →
  day_ledger today' w' = Some (hdr' :: rows') →
  rows ≡ₚ rows' →
  eval (get_today_stats today) w = eval (get_today_stats today') w'.
Proof.
  intros E E' Hp. rewrite !get_today_stats_entries. unfold transaction_rows.
  rewrite E, E'.
  change (drop 1 (default [] (Some (hdr :: rows)))) with rows.
  change (drop 1 (default [] (Some (hdr' :: rows')))) with rows'.
  apply sum_entries_perm. by rewrite Hp.
Qed.

(** ** The detail of a sale *)

Section groups_sum.
Context (f : Z * nat → Z).

Lemma groups_sum_insert_new (m : gmap Z nat) (k : Z) (v : nat) :
  m !! k = None →
  groups_sum f (<[k := v]> m) = (f (k, v) + groups_sum f m)%Z.
Proof.
  intros E. unfold groups_sum.
  rewrite (sumZ_perm _ (f <$> (k, v) :: map_to_list m)); [done|].
  by rewrite map_to_list_insert.
Qed.

Lemma groups_sum_insert (m : gmap Z nat) (k : Z) (v : nat) :
  groups_sum f (<[k := v]> m) =
    (f (k, v) + groups_sum f m
     - match m !! k with Some v0 => f (k, v0) | None => 0 end)%Z.
Proof.
  destruct (m !! k) as [v0|] eqn:E.
  - rewrite <- (insert_delete_eq m k v).
    rewrite groups_sum_insert_new by apply lookup_delete_eq.
    rewrite <- (insert_delete_id m k v0 E) at 2.
    rewrite groups_sum_insert_new by apply lookup_delete_eq. lia.
  - rewrite groups_sum_insert_new by done. lia.
Qed.
End groups_sum.

Lemma groups_sum_Counter_snoc (f : Z * nat → Z) (b : list Z) (x : Z) :
  groups_sum f (Counter (b ++ [x])) =
    (groups_sum f (Counter b) + f (x, S (occurrences x b))
     - (if decide (occurrences x b = 0%nat) then 0
        else f (x, occurrences x b)))%Z.
Proof.
  rewrite Counter_snoc, groups_sum_insert, Counter_lookup.
  case_decide as E; simpl; [rewrite E|]; lia.
Qed.

Lemma sumZ_snoc (b : list Z) (x : Z) : sumZ (b ++ [x]) = (sumZ b + x)%Z.
Proof.
  unfold sumZ. induction b as [|y b IH]; simpl; [lia|]. rewrite IH. lia.
Qed.

(** X5. The detail of a sale agrees with its count and its amount: the
    multiplicities of the groups add up to the number of items, and price
    times multiplicity adds up to the sum of the basket. *)
Theorem detail_groups_add_up (b : list Z) :
  groups_count (sorted_items (Counter b)) = Z.of_nat (length b)
  ∧ groups_amount (sorted_items (Counter b)) = sumZ b.
Proof.
  assert (∀ f, sumZ (f <$> sorted_items (Counter b)) = groups_sum f (Counter b))
    as Hs.
  { intros f. unfold groups_sum, sorted_items.
    apply sumZ_perm. by rewrite py_sort_perm. }
  unfold groups_count, groups_amount. rewrite !Hs. clear Hs.
  induction b as [|x b [IHc IHa]] using rev_ind; [done|].
  rewrite !groups_sum_Counter_snoc, IHc, IHa, length_app.
  rewrite sumZ_snoc. cbn [fst snd length]. case_decide; split; lia.
Qed.

Lemma occurrences_count_occ (p : Z) (b : list Z) :
  occurrences p b = count_occ Z.eq_dec b p.
Proof.
  unfold occurrences. induction b as [|x b IH]; [done|].
  rewrite filter_cons. simpl.
  destruct (Z.eq_dec x p), (decide (x = p)); simpl; congruence.
Qed.

(** ** The period report at the edges of its argument *)

(** The period report for any [n] whatever. *)
Lemma last_n_days_any (n : Z) (sh : Spreadsheet) :
  last_n_days n sh =
    if decide (dated_tabs sh = []) then inr (0%Z, 0%Z, None, None)
    else match py_slice_from (- n) (by_date sh) with
         | [] => inl IndexError
         | sel => inr (window_report sh sel)
         end.
Proof.
  unfold last_n_days. rewrite date_sheets_dated_tabs.
  case_decide as Hnil; [done|].
  fold (by_date sh). rewrite tabs_tally, py_index_first, py_index_final.
  destruct (py_slice_from (- n) (by_date sh)) as [|first rest]; [done|].
  cbn [head].
  destruct (last (first :: rest)) as [final|] eqn:El;
    [|by apply last_None in El].
  unfold window_report. rewrite El.
  cbn [default]. unfold add_entries. cbn [total_count total_amount].
  by destruct (sum_entries _).
Qed.

Lemma by_date_nil (sh : Spreadsheet) : by_date sh = [] ↔ dated_tabs sh = [].
Proof.
  unfold by_date. split; [|by intros ->].
  intros E. apply Permutation_nil_r. by rewrite <- E, py_sort_perm.
Qed.

Lemma by_date_length (sh : Spreadsheet) :
  length (by_date sh) = length (dated_tabs sh).
Proof. apply py_sort_length. Qed.

(** X7. Asked for the last 0 days, the period report does not come back
    empty: it covers every dated tab, exactly as it does for any [n] that
    is at least the number of dated tabs. *)
Theorem zero_days_reports_every_day (n : Z) (sh : Spreadsheet) :
  (Z.of_nat (length (dated_tabs sh)) ≤ n)%Z →
  last_n_days 0 sh = inr (window_report sh (by_date sh))
  ∧ last_n_days n sh = last_n_days 0 sh.
Proof.
  intros Hn. rewrite !last_n_days_any.
  unfold py_slice_from. rewrite <- by_date_length in Hn.
  case_decide as Hnil.
  { apply by_date_nil in Hnil. by rewrite Hnil. }
  assert (by_date sh ≠ []) as Hne by (by rewrite by_date_nil).
  rewrite (decide_False (P := (- 0 < 0)%Z)) by lia.
  replace (Z.to_nat (Z.min (- 0) (Z.of_nat (length (by_date sh))))) with 0
    by lia.
  rewrite drop_0.
  assert (drop (Z.to_nat (if decide (- n < 0)%Z
                          then Z.max (Z.of_nat (length (by_date sh)) + - n) 0
                          else Z.min (- n) (Z.of_nat (length (by_date sh)))))
               (by_date sh) = by_date sh) as ->.
  { rewrite <- (drop_0 (by_date sh)) at 2. f_equal. case_decide; lia. }
  by destruct (by_date sh).
Qed.

(** X8. A negative [n] does not count from the end: the report then
    leaves out the [-n] earliest dated tabs, and when that leaves none
    although dated tabs exist, the function fails with [IndexError]
    instead of answering. *)
Theorem negative_days_drop_the_earliest (n : Z) (sh : Spreadsheet) :
  (n < 0)%Z →
  dated_tabs sh ≠ [] →
  ((Z.of_nat (length (dated_tabs sh)) ≤ - n)%Z →
     last_n_days n sh = inl IndexError)
  ∧ ((- n < Z.of_nat (length (dated_tabs sh)))%Z →
       last_n_days n sh
       = inr (window_report sh (drop (Z.to_nat (- n)) (by_date sh)))).
Proof.
  intros Hn Hne. rewrite last_n_days_any, decide_False by done.
  unfold py_slice_from. rewrite decide_False by lia.
  rewrite <- by_date_length. split; intros Hlen.
  - rewrite drop_ge; [done|]. lia.
  - replace (Z.to_nat (Z.min (- n) (Z.of_nat (length (by_date sh)))))
      with (Z.to_nat (- n)) by lia.
    destruct (drop (Z.to_nat (- n)) (by_date sh)) eqn:E; [|done].
    apply (f_equal length) in E. rewrite length_drop in E. simpl in E. lia.
Qed.

Lemma date_le_refl (d : date) : date_le d d.
Proof. unfold date_le. lia. Qed.

Lemma by_date_sorted (sh : Spreadsheet) :
  StronglySorted (λ a b : date * nat, date_le a.1 b.1) (by_date sh).
Proof.
  eapply StronglySorted_weaken;
    [|apply (py_sort_sorted date_ltb fst date_ltb_asym date_not_ltb_trans)].
  intros a b. apply date_le_not_ltb.
Qed.

(** X9. When there are dated tabs and [n ≥ 1], the window of the period
    report runs from an earlier to a later date, both of them dates of
    tabs, and it always ends at the latest dated tab of the spreadsheet,
    whatever today's date is. *)
Theorem period_window_ends_at_latest_tab (n : Z) (sh : Spreadsheet) :
  (1 ≤ n)%Z →
  dated_tabs sh ≠ [] →
  ∃ c a first final,
    last_n_days n sh
    = inr (c, a, Some (isoformat first.1), Some (isoformat final.1))
    ∧ first ∈ dated_tabs sh
    ∧ final ∈ dated_tabs sh
    ∧ date_le first.1 final.1
    ∧ ∀ x, x ∈ dated_tabs sh → date_le x.1 final.1.
Proof.
  intros Hn Hne. rewrite last_n_days_period by done.
  unfold period_stats.
  pose proof (window_length (Z.to_nat n) sh) as Hlen.
  assert (by_date sh
          = take (length (by_date sh) - Z.to_nat n) (by_date sh)
              ++ window (Z.to_nat n) sh) as Hsplit.
  { unfold window. by rewrite take_drop. }
  set (older := take _ _) in Hsplit. clearbody older.
  destruct (window (Z.to_nat n) sh) as [|first rest] eqn:E.
  { destruct (dated_tabs sh); [done|]. simpl in Hlen. lia. }
  destruct (snoc_cases (first :: rest)) as [?|(mid & final & Hmid)]; [done|].
  assert (last (first :: rest) = Some final) as Hlast
    by (rewrite Hmid; apply last_snoc).
  rewrite Hlast. cbn [default].
  destruct (sum_entries _) as [c a]. exists c, a, first, final.
  pose proof (by_date_sorted sh) as Hs.
  rewrite Hsplit, Hmid, app_assoc in Hs.
  apply StronglySorted_app in Hs as (Hall & _ & _).
  assert (∀ x, x ∈ dated_tabs sh → x ∈ by_date sh) as Hin.
  { intros x Hx. unfold by_date. by rewrite py_sort_perm. }
  assert (∀ x, x ∈ by_date sh → x ∈ dated_tabs sh) as Hin'.
  { intros x Hx. unfold by_date in Hx. by rewrite py_sort_perm in Hx. }
  assert (∀ x, x ∈ by_date sh → date_le x.1 final.1) as Hmax.
  { intros x Hx. rewrite Hsplit, Hmid, app_assoc in Hx.
    apply elem_of_app in Hx as [Hx|Hx].
    - apply (Hall x final Hx). by apply list_elem_of_singleton.
    - apply list_elem_of_singleton in Hx. subst. apply date_le_refl. }
  assert (first ∈ by_date sh) as Hfirst.
  { rewrite Hsplit. apply elem_of_app. right. by left. }
  assert (final ∈ by_date sh) as Hfinal.
  { rewrite Hsplit, Hmid. rewrite !elem_of_app. right. right.
    by apply list_elem_of_singleton. }
  split_and!; [done|by apply Hin'|by apply Hin'|by apply Hmax|].
  intros x Hx. by apply Hmax, Hin.
Qed.

(** ** Sales, voids and the day report together *)

(** X11. A void takes exactly the last sale out of the day report: the
    report afterwards is that of the remaining rows, and the report
    before exceeded it by the count and amount of the voided row (by
    nothing when that row was unreadable). *)
Theorem day_report_after_void (today : date) (w : World) (hdr r : Row)
    (rows : list Row) :
  day_ledger today w = Some (hdr :: rows ++ [r]) →
  let w' := exec (cancel_last_transaction today) w in
  eval (get_today_stats today) w' = day_totals rows
  ∧ eval (get_today_stats today) w =
      (((day_totals rows).1 + (default (0, 0) (row_entry r)).1)%Z,
       ((day_totals rows).2 + (default (0, 0) (row_entry r)).2)%Z).
Proof.
  intros E w'.
  destruct (cancel_last_transaction_spec today w) as (_ & _ & Hgt).
  rewrite E in Hgt.
  change (default [header_row] (Some (hdr :: rows ++ [r])))
    with ((hdr :: rows) ++ [r]) in Hgt.
  rewrite length_app in Hgt.
  destruct Hgt as (_ & Hl); [simpl; lia|].
  rewrite Nat.add_sub, take_app_length in Hl.
  rewrite !get_today_stats_entries. unfold transaction_rows, day_totals.
  unfold day_ledger at 1. fold w' in Hl. rewrite Hl, decide_True, E by done.
  split; [done|].
  change (drop 1 (default [] (Some (hdr :: rows ++ [r])))) with (rows ++ [r]).
  rewrite omap_app, sum_entries_app.
  change (omap row_entry [r])
    with (match row_entry r with Some e => [e] | None => [] end).
  destruct (row_entry r) as [[c a]|]; unfold sum_entries at 2 4; simpl;
    f_equal; lia.
Qed.

Lemma btn_confirm_main_basket (today : date) (now : datetime) (w : World) :
  basket (exec (btn_confirm_main today now) w) = [].
Proof.
  destruct (decide (basket w = [])) as [E|E].
  - destruct w as [sh b ns]. simpl in E. subst b.
    unfold btn_confirm_main. by run_app.
  - by destruct (btn_confirm_main_spec today now w E) as [-> _].
Qed.

(** X12. Pressing confirm a second time books nothing again: whatever
    the first press did, the second leaves the spreadsheet as the first
    left it and only reports that the basket is empty. *)
Theorem confirm_twice_books_once (today today' : date) (now now' : datetime)
    (w : World) :
  let w1 := exec (btn_confirm_main today now) w in
  exec (btn_confirm_main today' now') w1
  = Mk_World (book w1) [] (shown w1 ++ [(Warning, "カゴが空です。")]).
Proof.
  intros w1. pose proof (btn_confirm_main_basket today now w) as Hb.
  fold w1 in Hb. destruct w1 as [sh b ns]. simpl in Hb. subst b.
  unfold btn_confirm_main. by run_app.
Qed.

Lemma cancel_last_transaction_ledger (today : date) (w : World) (hdr : Row)
    (rows : list Row) :
  day_ledger today w = Some (hdr :: rows) →
  day_ledger today (exec (cancel_last_transaction today) w)
  = Some (hdr :: take (length rows - 1) rows).
Proof.
  intros E.
  destruct (cancel_last_transaction_spec today w) as (_ & Hle & Hgt).
  rewrite E in Hle, Hgt.
  change (default [header_row] (Some (hdr :: rows))) with (hdr :: rows)
    in Hle, Hgt.
  unfold day_ledger at 1.
  destruct rows as [|r rows].
  - destruct Hle as (_ & _ & Hl); [simpl; lia|]. by rewrite Hl, decide_True.
  - destruct Hgt as (_ & Hl); [simpl; lia|].
    rewrite Hl, decide_True by done. simpl. by rewrite Nat.sub_0_r.
Qed.

(** X13. Voids peel the sales of the day off one by one, latest first,
    and stop at the header row: after [k] voids the ledger holds the
    header and all but the last [k] Transaction Rows. *)
Theorem repeated_void_peels_latest_sales (today : date) (k : nat) (w : World)
    (hdr : Row) (rows : list Row) :
  day_ledger today w = Some (hdr :: rows) →
  day_ledger today (Nat.iter k (exec (cancel_last_transaction today)) w)
  = Some (hdr :: take (length rows - k) rows).
Proof.
  intros E. induction k as [|k IH].
  - simpl. by rewrite Nat.sub_0_r, firstn_all.
  - rewrite Nat.iter_succ, (cancel_last_transaction_ledger _ _ _ _ IH).
    do 2 f_equal. rewrite length_take, take_take. f_equal. lia.
Qed.

Lemma run_ops_add_prices (ps : list Z) (w : World) :
  run_ops (AddSalePrice <$> ps) w
  = Mk_World (book w) (basket w ++ ps) (shown w).
Proof.
  revert w. induction ps as [|p ps IH]; intros w.
  - destruct w. simpl. by rewrite app_nil_r.
  - unfold run_ops in *. rewrite fmap_cons. cbn [foldl]. rewrite IH.
    unfold run_op, btn_sale, basket_append. run_app.
    by rewrite <- app_assoc.
Qed.

(** X14. Prices entered one by one into an empty basket and then
    confirmed end up as one row for exactly those prices, in the ledger
    of the day of the confirmation; the basket is empty again. *)
Theorem entered_prices_are_booked (ps : list Z) (today : date)
    (now : datetime) (w : World) :
  basket w = [] →
  ps ≠ [] →
  let w' := run_ops ((AddSalePrice <$> ps) ++ [ConfirmSale today now]) w in
  day_ledger today w' =
    Some (default [header_row] (day_ledger today w)
            ++ [[strftime_HMS now; isoformat (dt_date now);
                 pretty (Z.of_nat (length ps)); pretty (sumZ ps);
                 detail_of ps]])
  ∧ basket w' = [].
Proof.
  intros Hb Hps w'. subst w'.
  rewrite run_ops_snoc, run_ops_add_prices, Hb, app_nil_l.
  cbn [run_op].
  destruct (btn_confirm_main_spec today now
              (Mk_World (book w) ps (shown w)) Hps) as (Hbasket & Hl).
  split; [|done].
  unfold day_ledger. by rewrite Hl, decide_True.
Qed.

(** ** One run of [main] *)

Lemma get_today_stats_state (today : date) (w : World) :
  exec (get_today_stats today) w = exec (get_today_worksheet today) w.
Proof.
  unfold get_today_stats. run_app.
  destruct (get_today_worksheet today w) as [ws w1]. simpl.
  by case_decide.
Qed.



Lemma pwd_special_state (pwd : string) (btn : option Z) (w : World) :
  book (exec (pwd_special pwd btn) w) = book w
  ∧ (btn = None → basket (exec (pwd_special pwd btn) w) = basket w).
Proof.
  unfold pwd_special, basket_append. run_app.
  repeat case_decide; destruct btn; simpl; split; try done.
Qed.









(** ** Other days *)

Lemma exec_discard {A} (m : App A) (w : World) :
  exec (m;; mret tt) w = exec m w.
Proof. run_app. by destruct (m w). Qed.

Lemma run_op_other_day (op : Op) (w : World) (name : string) :
  (∀ today, op_day op = Some today → name ≠ isoformat today) →
  ledger name (book (exec (run_op op) w)) = ledger name (book w).
Proof.
  intros Hday.
  destruct op as [| |value|pwd btn| |today now|today|today|k];
    unfold run_op; try done.
  - rewrite exec_discard. by destruct (pwd_special_state pwd btn w) as [-> _].
  - specialize (Hday today eq_refl).
    destruct (decide (basket w = [])) as [E|E].
    + destruct w as [sh b ns]. simpl in E. subst b.
      unfold btn_confirm_main. by run_app.
    + destruct (btn_confirm_main_spec today now w E) as (_ & Hl).
      by rewrite Hl, decide_False.
  - specialize (Hday today eq_refl).
    destruct (cancel_last_transaction_spec today w) as (_ & Hle & Hgt).
    assert (book (exec (btn_cancel_main today) w)
            = book (exec (cancel_last_transaction today) w)) as ->.
    { unfold btn_cancel_main. run_app.
      by destruct (cancel_last_transaction today w). }
    destruct (decide (length (default [header_row] (day_ledger today w)) ≤ 1)).
    + destruct Hle as (_ & _ & Hl); [done|]. by rewrite Hl, decide_False.
    + destruct Hgt as (_ & Hl); [lia|]. by rewrite Hl, decide_False.
  - specialize (Hday today eq_refl).
    rewrite exec_discard, get_today_stats_state.
    destruct (get_today_worksheet_spec today w) as (ws & sh & Hrun & _ & _ & Hl).
    unfold exec. rewrite Hrun. cbn [snd book]. by rewrite Hl, decide_False.
Qed.

(** X18. The ledger of a day is out of reach of everything done on other
    days: a tab is left exactly as it is by any sequence of actions none
    of which reads that tab's title from the clock.  Adding to the
    basket, resetting it, the password field and the period report never
    touch any ledger at all. *)
Theorem other_days_are_never_touched (name : string) (ops : list Op)
    (w : World) :
  (∀ op today, op ∈ ops → op_day op = Some today → name ≠ isoformat today) →
  ledger name (book (run_ops ops w)) = ledger name (book w).
Proof.
  induction ops as [|op ops IH] using rev_ind; [done|].
  intros Hday. rewrite run_ops_snoc, run_op_other_day.
  - apply IH. intros op' today Hin. apply Hday, elem_of_app. by left.
  - intros today. apply Hday, elem_of_app. right. by left.
Qed.

(** ** Reading a detail back *)

Lemma string_app_assoc (s1 s2 s3 : string) :
  (s1 +:+ s2) +:+ s3 = s1 +:+ (s2 +:+ s3).
Proof.
  induction s1 as [|a s1 IH]; [done|].
  change (String a ((s1 +:+ s2) +:+ s3) = String a (s1 +:+ (s2 +:+ s3))).
  by rewrite IH.
Qed.

Lemma pretty_N_go_numeral (x : N) (s : string) :
  all_chars numeral_char s = true →
  all_chars numeral_char (pretty_N_go x s) = true.
Proof.
  revert s. induction (N.lt_wf_0 x) as [x _ IH]; intros s Hs.
  destruct (decide (0 < x)%N) as [Hx|Hx].
  - rewrite pretty_N_go_step by done.
    apply IH; [by apply N.div_lt|].
    cbn [all_chars]. rewrite Hs, andb_true_r.
    unfold pretty_N_char. by repeat case_match.
  - assert (x = 0%N) as -> by lia. by rewrite pretty_N_go_0.
Qed.

Lemma pretty_N_go_not_empty (x : N) (s : string) :
  s ≠ "" → pretty_N_go x s ≠ "".
Proof.
  revert s. induction (N.lt_wf_0 x) as [x _ IH]; intros s Hs.
  destruct (decide (0 < x)%N) as [Hx|Hx].
  - rewrite pretty_N_go_step by done. apply IH; [by apply N.div_lt|done].
  - assert (x = 0%N) as -> by lia. by rewrite pretty_N_go_0.
Qed.

Lemma pretty_N_numeral (x : N) :
  all_chars numeral_char (pretty x) = true ∧ pretty x ≠ "".
Proof.
  unfold pretty, pretty_N. case_decide as Hx; [done|].
  split; [by apply pretty_N_go_numeral|].
  rewrite pretty_N_go_step by lia. by apply pretty_N_go_not_empty.
Qed.

Lemma pretty_nat_numeral (n : nat) :
  all_chars numeral_char (pretty n) = true ∧ pretty n ≠ "".
Proof. apply pretty_N_numeral. Qed.

Lemma pretty_Z_numeral (z : Z) :
  all_chars numeral_char (pretty z) = true ∧ pretty z ≠ "".
Proof.
  destruct z as [|p|p]; [done|apply pretty_N_numeral|].
  change (pretty (Z.neg p)) with (String "-" (pretty (N.pos p))).
  split; [|done]. cbn [all_chars]. by apply pretty_N_numeral.
Qed.

(** A numeral followed by something that cannot continue it is read off
    the front of a text in one way only. *)
Lemma numeral_prefix_unique (s1 s2 t1 t2 : string) :
  all_chars numeral_char s1 = true →
  all_chars numeral_char s2 = true →
  stops_numeral t1 = true →
  stops_numeral t2 = true →
  s1 +:+ t1 = s2 +:+ t2 →
  s1 = s2 ∧ t1 = t2.
Proof.
  revert s2. induction s1 as [|a s1 IH]; intros [|b s2] H1 H2 Ht1 Ht2 E.
  - done.
  - change (t1 = String b (s2 +:+ t2)) in E. subst t1.
    cbn [all_chars stops_numeral] in *.
    apply andb_true_iff in H2 as [H2 _]. by rewrite H2 in Ht1.
  - change (String a (s1 +:+ t1) = t2) in E. subst t2.
    cbn [all_chars stops_numeral] in *.
    apply andb_true_iff in H1 as [H1 _]. by rewrite H1 in Ht2.
  - change (String a (s1 +:+ t1) = String b (s2 +:+ t2)) in E.
    injection E as -> E. cbn [all_chars] in *.
    apply andb_true_iff in H1 as [_ H1]. apply andb_true_iff in H2 as [_ H2].
    destruct (IH s2 H1 H2 Ht1 Ht2 E) as [-> ->]. done.
Qed.

Lemma concat_detail_cons (g : Z * nat) (gs : list (Z * nat)) :
  String.concat ", " (detail_part <$> g :: gs) = detail_part g +:+ detail_rest gs.
Proof.
  destruct gs as [|g' gs]; [|done].
  cbn. induction (detail_part g) as [|a s IH]; [done|].
  change (String a s = String a (s +:+ "")). by rewrite <- IH.
Qed.

Lemma detail_rest_stops (gs : list (Z * nat)) : stops_numeral (detail_rest gs) = true.
Proof. by destruct gs. Qed.

(** The joined parts can be taken apart again. *)
Lemma detail_parts_inj (gs1 gs2 : list (Z * nat)) :
  String.concat ", " (detail_part <$> gs1)
  = String.concat ", " (detail_part <$> gs2) →
  gs1 = gs2.
Proof.
  revert gs2. induction gs1 as [|[p1 c1] gs1 IH]; intros [|[p2 c2] gs2] E.
  - done.
  - rewrite concat_detail_cons in E. unfold detail_part in E.
    destruct (pretty_Z_numeral p2) as [_ Hne].
    cbn [fst] in E. by destruct (pretty p2).
  - rewrite concat_detail_cons in E. unfold detail_part in E.
    destruct (pretty_Z_numeral p1) as [_ Hne].
    cbn [fst] in E. by destruct (pretty p1).
  - rewrite !concat_detail_cons in E. unfold detail_part in E.
    cbn [fst snd] in E. rewrite !string_app_assoc in E.
    destruct (numeral_prefix_unique (pretty p1) (pretty p2)
                ("円×" +:+ pretty c1 +:+ detail_rest gs1)
                ("円×" +:+ pretty c2 +:+ detail_rest gs2)
                (proj1 (pretty_Z_numeral p1)) (proj1 (pretty_Z_numeral p2))
                eq_refl eq_refl E) as [Hp E'].
    apply (inj pretty) in Hp. subst p2.
    apply (inj (String.app "円×")) in E'.
    destruct (numeral_prefix_unique _ _ _ _
                (proj1 (pretty_nat_numeral c1)) (proj1 (pretty_nat_numeral c2))
                (detail_rest_stops gs1) (detail_rest_stops gs2) E')
      as [Hc E''].
    apply (inj pretty) in Hc. subst c2. f_equal.
    destruct gs1 as [|g1 gs1], gs2 as [|g2 gs2]; try done.
    apply IH. unfold detail_rest in E''.
    by apply (inj (String.app ", ")) in E''.
Qed.

Lemma groups_determine_basket (b1 b2 : list Z) :
  sorted_items (Counter b1) = sorted_items (Counter b2) → b1 ≡ₚ b2.
Proof.
  intros E. apply (Permutation_count_occ Z.eq_dec). intros p.
  rewrite <- !occurrences_count_occ.
  assert (Counter b1 !! p = Counter b2 !! p) as Hl.
  { apply option_eq. intros c. by rewrite <- !sorted_items_elem, E. }
  rewrite !Counter_lookup in Hl.
  repeat case_decide; simplify_eq; congruence.
Qed.

(** X6. The detail text of a sale can be read back: two baskets get the
    same detail text exactly when they hold the same prices the same
    number of times, so the text alone tells what was sold. *)
Theorem detail_text_determines_basket (b1 b2 : list Z) :
  detail_of b1 = detail_of b2 ↔ b1 ≡ₚ b2.
Proof.
  split.
  - rewrite !detail_of_groups. intros E.
    by apply groups_determine_basket, detail_parts_inj.
  - intros Hp. unfold detail_of. by rewrite (Counter_perm b1 b2 Hp).
Qed.

End register.

(** * The claims on the sample data *)

(** The first sale of the day, on an empty book. *)
Lemma confirm_sale_on_empty_book :
  basket (Mk_World [] [300; 200; 300]%Z []) ≠ []
  ∧ day_ledger nov21
      (exec (btn_confirm_main nov21 opening) (Mk_World [] [300; 200; 300]%Z []))
    = Some [header_row;
            ["09:05:03"; "2025-11-21"; "3"; "800"; "200円×1, 300円×2"]].
Proof.
  assert (basket (Mk_World [] [300; 200; 300]%Z []) ≠ []) as H by done.
  split; [exact H|].
  destruct (confirm_sale_appends_one_row nov21 opening _ H) as [E _].
  rewrite E. vm_compute. reflexivity.
Defined.

(** A sale confirmed and voided on the third day of the festival. *)
Lemma confirm_then_void_on_festival_book :
  basket (Mk_World festival_book [300; 200]%Z []) ≠ []
  ∧ length (transaction_rows nov21
              (exec (btn_cancel_main nov21)
                 (exec (btn_confirm_main nov21 opening)
                    (Mk_World festival_book [300; 200]%Z []))))
    = 2
  ∧ basket (exec (btn_cancel_main nov21)
              (exec (btn_confirm_main nov21 opening)
                 (Mk_World festival_book [300; 200]%Z [])))
    = [].
Proof.
  assert (basket (Mk_World festival_book [300; 200]%Z []) ≠ []) as H by done.
  split; [exact H|].
  destruct (confirm_then_void_restores_row_count nov21 opening _ H)
    as (E & Hb & _).
  split; [|exact Hb].
  rewrite E. vm_compute. reflexivity.
Defined.

(** The three festival days; the tab of notes is passed over. *)
Lemma period_stats_on_festival_book :
  (1 ≤ 3)%Z
  ∧ last_n_days int_ascii fromisoformat_ymd 3 festival_book
    = inr (6%Z, 1600%Z, Some "2025-11-19", Some "2025-11-21").
Proof.
  assert (1 ≤ 3)%Z as H by lia.
  split; [exact H|].
  destruct (period_stats_over_last_dated_tabs int_ascii fromisoformat_ymd 3
              festival_book H) as [E _].
  rewrite E. vm_compute. reflexivity.
Defined.

(** One row with the count spelt out, one good row. *)
Lemma today_stats_on_damaged_book :
  row_entry int_ascii (sale_of "two" "600") = None
  ∧ row_entry int_ascii (sale_of "2" "600") = Some (2%Z, 600%Z)
  ∧ eval (get_today_stats int_ascii nov21) (Mk_World damaged_book [] [])
    = (2%Z, 600%Z).
Proof.
  assert (row_entry int_ascii (sale_of "two" "600") = None) as Hbad
    by reflexivity.
  assert (row_entry int_ascii (sale_of "2" "600") = Some (2%Z, 600%Z)) as Hgood
    by reflexivity.
  split_and!; [exact Hbad|exact Hgood|].
  destruct (today_stats_sums_readable_rows int_ascii nov21
              (Mk_World damaged_book [] [])) as [_ E].
  apply (E header_row _ _ Hbad Hgood). left. reflexivity.
Defined.

(** The day report after that first sale. *)
Lemma today_stats_after_first_sale :
  basket (Mk_World [] [300; 200; 300]%Z []) ≠ []
  ∧ day_ledger nov21 (Mk_World [] [300; 200; 300]%Z []) ≠ Some []
  ∧ int_ascii (pretty 3%Z) = Some 3%Z
  ∧ int_ascii (pretty 800%Z) = Some 800%Z
  ∧ eval (get_today_stats int_ascii nov21)
      (exec (btn_confirm_main nov21 opening) (Mk_World [] [300; 200; 300]%Z []))
    = (3%Z, 800%Z).
Proof.
  assert (basket (Mk_World [] [300; 200; 300]%Z []) ≠ []) as Hb by done.
  assert (day_ledger nov21 (Mk_World [] [300; 200; 300]%Z []) ≠ Some [])
    as Hh by done.
  assert (int_ascii (pretty 3%Z) = Some 3%Z) as Hc by reflexivity.
  assert (int_ascii (pretty 800%Z) = Some 800%Z) as Ha by reflexivity.
  split_and!; [exact Hb|exact Hh|exact Hc|exact Ha|].
  exact (today_stats_after_confirm int_ascii nov21 opening _ Hb Hh Hc Ha).
Defined.

Lemma confirm_empty_basket_on_festival_book :
  basket (Mk_World festival_book [] []) = []
  ∧ exec (btn_confirm_main nov21 opening) (Mk_World festival_book [] [])
    = Mk_World festival_book [] [(Warning, "カゴが空です。")].
Proof.
  assert (basket (Mk_World festival_book [] []) = []) as H by reflexivity.
  split; [exact H|].
  exact (proj1 (confirm_empty_basket_changes_nothing nov21 opening _ H)).
Defined.

(** On a day without a ledger the void has nothing to remove, yet the
    spreadsheet gains the day's tab, and the period report, which found
    no dated tab before, now reports that day as its window. *)
Lemma void_on_absent_ledger_adds_tab :
  transaction_rows nov21 (Mk_World [] [] []) = []
  ∧ day_ledger nov21 (exec (cancel_last_transaction nov21) (Mk_World [] [] []))
    ≠ day_ledger nov21 (Mk_World [] [] [])
  ∧ book (exec (cancel_last_transaction nov21) (Mk_World [] [] []))
    ≠ book (Mk_World [] [] [])
  ∧ last_n_days int_ascii fromisoformat_ymd 5 (book (Mk_World [] [] []))
    = inr (0%Z, 0%Z, None, None)
  ∧ last_n_days int_ascii fromisoformat_ymd 5
      (book (exec (cancel_last_transaction nov21) (Mk_World [] [] [])))
    = inr (0%Z, 0%Z, Some "2025-11-21", Some "2025-11-21").
Proof.
  split_and!; [reflexivity|vm_compute; discriminate..|reflexivity|].
  by vm_compute.
Qed.

Lemma void_on_festival_book :
  day_ledger nov21 (Mk_World festival_book [300]%Z [])
    = Some (header_row :: [sale_of "1" "300"] ++ [sale_of "2" "600"])
  ∧ day_ledger nov21
      (exec (cancel_last_transaction nov21) (Mk_World festival_book [300]%Z []))
    = Some [header_row; sale_of "1" "300"]
  ∧ basket (exec (cancel_last_transaction nov21)
              (Mk_World festival_book [300]%Z []))
    = [300]%Z.
Proof.
  assert (day_ledger nov21 (Mk_World festival_book [300]%Z [])
          = Some (header_row :: [sale_of "1" "300"] ++ [sale_of "2" "600"]))
    as H by reflexivity.
  split; [exact H|].
  destruct (void_last_sale_effect nov21 (Mk_World festival_book [300]%Z []))
    as (Hb & _ & Hv & _).
  split; [exact (proj1 (Hv _ _ _ H))|exact Hb].
Defined.

(** A sale and its void on a new day: the ledger steps back from
    HasRows to HeaderOnly and keeps its header row. *)
Lemma lifecycle_of_a_voided_sale :
  ledger_state
    (ledger "2025-11-21"
       (book (run_ops int_ascii fromisoformat_ymd "imo"
                [AddBasePrice; ConfirmSale nov21 opening]
                (Mk_World [] [] []))))
    = HasRows
  ∧ transition_ok (VoidLast nov21) HasRows HeaderOnly
  ∧ ledger "2025-11-21"
      (book (run_ops int_ascii fromisoformat_ymd "imo"
               ([AddBasePrice; ConfirmSale nov21 opening] ++ [VoidLast nov21])
               (Mk_World [] [] []))) ≫= head
    = Some header_row.
Proof.
  destruct (day_ledger_lifecycle int_ascii fromisoformat_ymd "imo" "2025-11-21"
              [AddBasePrice; ConfirmSale nov21 opening] (VoidLast nov21)
              (Mk_World [] [] [])) as (Ht & _ & Hh & _).
  split_and!; [reflexivity|exact Ht|].
  apply Hh. reflexivity.
Defined.

Lemma detail_of_reordered_basket :
  [300; 200; 300]%Z ≡ₚ [200; 300; 300]%Z
  ∧ detail_of [300; 200; 300]%Z = detail_of [200; 300; 300]%Z.
Proof.
  assert ([300; 200; 300]%Z ≡ₚ [200; 300; 300]%Z) as H
    by apply Permutation_swap.
  split; [exact H|].
  exact (proj1 (detail_ignores_basket_order _ _ nov21 opening [] [] H)).
Defined.

Lemma wrong_password_is_reported :
  shown (exec (pwd_special "imo" "potato" None) (Mk_World [] [] []))
    = [(Error, "パスワードが違います。")]
  ∧ eval (pwd_special "imo" "potato" None) (Mk_World [] [] []) ≠ true.
Proof.
  destruct (special_discount_authorization "imo" "potato" None
              (Mk_World [] [] [])) as (Hu & Hs & _).
  split.
  - apply Hs. split; discriminate.
  - intros E. apply Hu in E. discriminate.
Defined.

Lemma cut_row_adds_nothing :
  cut_row !! 2 ≫= int_ascii = Some 2%Z
  ∧ cut_row !! 3 ≫= int_ascii = None
  ∧ ∀ t, try_continue (tally_row int_ascii cut_row) t = t.
Proof.
  assert (cut_row !! 2 ≫= int_ascii = Some 2%Z) as Hc by reflexivity.
  assert (cut_row !! 3 ≫= int_ascii = None) as Ha by reflexivity.
  split_and!; [exact Hc|exact Ha|].
  exact (proj1 (half_read_row_adds_nothing int_ascii fromisoformat_ymd
                  cut_row 2 Hc Ha)).
Defined.

(** * The further properties on the sample data *)

Lemma first_read_of_a_new_day :
  day_ledger nov21 (Mk_World [] [] []) = None
  ∧ exec (get_today_worksheet nov21) (Mk_World [] [] [])
    = Mk_World [Sheet "2025-11-21" [header_row]] [] [].
Proof.
  assert (day_ledger nov21 (Mk_World [] [] []) = None) as H by reflexivity.
  split; [exact H|].
  destruct (get_today_worksheet_idempotent nov21 (Mk_World [] [] []))
    as (_ & _ & Hnew).
  exact (Hnew H).
Defined.

Lemma festival_tabs_stay_unique :
  titles_unique festival_book
  ∧ titles_unique
      (book (run_ops int_ascii fromisoformat_ymd "imo"
               [AddBasePrice; ConfirmSale (Date 2025 11 22) opening;
                VoidLast nov21; TodayStatsView (Date 2025 11 23)]
               (Mk_World festival_book [] []))).
Proof.
  assert (titles_unique festival_book) as H.
  { unfold titles_unique.
    refine (bool_decide_unpack (NoDup (title <$> festival_book)) _).
    vm_compute. exact I. }
  split; [exact H|].
  destruct (tabs_are_only_ever_added int_ascii fromisoformat_ymd "imo"
              [AddBasePrice; ConfirmSale (Date 2025 11 22) opening;
               VoidLast nov21; TodayStatsView (Date 2025 11 23)]
              (Mk_World festival_book [] [])) as [_ Hu].
  exact (Hu H).
Defined.

Lemma day_report_of_a_new_day :
  transaction_rows nov21 (Mk_World [] [] []) = []
  ∧ eval (get_today_stats int_ascii nov21) (Mk_World [] [] []) = (0%Z, 0%Z).
Proof.
  assert (transaction_rows nov21 (Mk_World [] [] []) = []) as H
    by reflexivity.
  split; [exact H|].
  destruct (get_today_stats_only_reads int_ascii nov21 (Mk_World [] [] []))
    as (_ & _ & Hzero).
  exact (Hzero H).
Defined.

Lemma day_report_of_reordered_rows :
  day_ledger nov21 (Mk_World damaged_book [] [])
    = Some (header_row :: [sale_of "two" "600"; sale_of "2" "600"])
  ∧ day_ledger nov21
      (Mk_World [Sheet "2025-11-21"
                   [["a"; "b"; "7"; "7"]; sale_of "2" "600";
                    sale_of "two" "600"]] [] [])
    = Some (["a"; "b"; "7"; "7"] :: [sale_of "2" "600"; sale_of "two" "600"])
  ∧ [sale_of "two" "600"; sale_of "2" "600"]
      ≡ₚ [sale_of "2" "600"; sale_of "two" "600"]
  ∧ eval (get_today_stats int_ascii nov21) (Mk_World damaged_book [] [])
    = eval (get_today_stats int_ascii nov21)
        (Mk_World [Sheet "2025-11-21"
                     [["a"; "b"; "7"; "7"]; sale_of "2" "600";
                      sale_of "two" "600"]] [] []).
Proof.
  assert (day_ledger nov21 (Mk_World damaged_book [] [])
          = Some (header_row :: [sale_of "two" "600"; sale_of "2" "600"]))
    as H1 by reflexivity.
  assert (day_ledger nov21
            (Mk_World [Sheet "2025-11-21"
                         [["a"; "b"; "7"; "7"]; sale_of "2" "600";
                          sale_of "two" "600"]] [] [])
          = Some (["a"; "b"; "7"; "7"]
                    :: [sale_of "2" "600"; sale_of "two" "600"]))
    as H2 by reflexivity.
  assert ([sale_of "two" "600"; sale_of "2" "600"]
            ≡ₚ [sale_of "2" "600"; sale_of "two" "600"]) as H3
    by apply Permutation_swap.
  split_and!; [exact H1|exact H2|exact H3|].
  exact (day_report_ignores_row_order int_ascii _ _ _ _ _ _ _ _ H1 H2 H3).
Defined.

Lemma zero_days_on_festival_book :
  (Z.of_nat (length (dated_tabs fromisoformat_ymd festival_book)) ≤ 3)%Z
  ∧ last_n_days int_ascii fromisoformat_ymd 3 festival_book
    = last_n_days int_ascii fromisoformat_ymd 0 festival_book.
Proof.
  assert (Z.of_nat (length (dated_tabs fromisoformat_ymd festival_book)) ≤ 3)%Z
    as H by (vm_compute; discriminate).
  split; [exact H|].
  exact (proj2 (zero_days_reports_every_day int_ascii fromisoformat_ymd 3
                  festival_book H)).
Defined.

Lemma minus_three_days_on_festival_book :
  (-3 < 0)%Z
  ∧ dated_tabs fromisoformat_ymd festival_book ≠ []
  ∧ (Z.of_nat (length (dated_tabs fromisoformat_ymd festival_book)) ≤ - -3)%Z
  ∧ last_n_days int_ascii fromisoformat_ymd (-3) festival_book
    = inl IndexError.
Proof.
  assert (-3 < 0)%Z as H1 by lia.
  assert (dated_tabs fromisoformat_ymd festival_book ≠ []) as H2
    by (vm_compute; discriminate).
  assert (Z.of_nat (length (dated_tabs fromisoformat_ymd festival_book))
          ≤ - -3)%Z as H3 by (vm_compute; discriminate).
  split_and!; [exact H1|exact H2|exact H3|].
  exact (proj1 (negative_days_drop_the_earliest int_ascii fromisoformat_ymd
                  (-3) festival_book H1 H2) H3).
Defined.

Lemma window_of_two_days_on_festival_book :
  (1 ≤ 2)%Z
  ∧ dated_tabs fromisoformat_ymd festival_book ≠ []
  ∧ ∃ final,
      final ∈ dated_tabs fromisoformat_ymd festival_book
      ∧ ∀ x, x ∈ dated_tabs fromisoformat_ymd festival_book →
             date_le x.1 final.1.
Proof.
  assert (1 ≤ 2)%Z as H1 by lia.
  assert (dated_tabs fromisoformat_ymd festival_book ≠ []) as H2
    by (vm_compute; discriminate).
  split_and!; [exact H1|exact H2|].
  destruct (period_window_ends_at_latest_tab int_ascii fromisoformat_ymd 2
              festival_book H1 H2)
    as (c & a & first & final & _ & _ & Hin & _ & Hmax).
  exists final. split; [exact Hin|exact Hmax].
Defined.

Lemma day_report_after_void_on_festival_book :
  day_ledger nov21 (Mk_World festival_book [] [])
    = Some (header_row :: [sale_of "1" "300"] ++ [sale_of "2" "600"])
  ∧ eval (get_today_stats int_ascii nov21)
      (exec (cancel_last_transaction nov21) (Mk_World festival_book [] []))
    = (1%Z, 300%Z).
Proof.
  assert (day_ledger nov21 (Mk_World festival_book [] [])
          = Some (header_row :: [sale_of "1" "300"] ++ [sale_of "2" "600"]))
    as H by reflexivity.
  split; [exact H|].
  exact (proj1 (day_report_after_void int_ascii nov21 _ _ _ _ H)).
Defined.

Lemma five_voids_on_festival_book :
  day_ledger nov21 (Mk_World festival_book [] [])
    = Some (header_row :: [sale_of "1" "300"; sale_of "2" "600"])
  ∧ day_ledger nov21
      (Nat.iter 5 (exec (cancel_last_transaction nov21))
         (Mk_World festival_book [] []))
    = Some [header_row].
Proof.
  assert (day_ledger nov21 (Mk_World festival_book [] [])
          = Some (header_row :: [sale_of "1" "300"; sale_of "2" "600"]))
    as H by reflexivity.
  split; [exact H|].
  exact (repeated_void_peels_latest_sales nov21 5 _ _ _ H).
Defined.

Lemma three_prices_booked_on_festival_book :
  basket (Mk_World festival_book [] []) = []
  ∧ [300; 250; 300]%Z ≠ []
  ∧ basket
      (run_ops int_ascii fromisoformat_ymd "imo"
         ((AddSalePrice <$> [300; 250; 300]%Z) ++ [ConfirmSale nov21 opening])
         (Mk_World festival_book [] []))
    = [].
Proof.
  assert (basket (Mk_World festival_book [] []) = []) as H1 by reflexivity.
  assert ([300; 250; 300]%Z ≠ []) as H2 by done.
  split_and!; [exact H1|exact H2|].
  exact (proj2 (entered_prices_are_booked int_ascii fromisoformat_ymd "imo"
                  [300; 250; 300]%Z nov21 opening _ H1 H2)).
Defined.




Lemma earlier_days_survive_a_day_of_sales :
  (∀ op today,
     op ∈ [AddBasePrice; ConfirmSale nov21 opening; VoidLast nov21;
           TodayStatsView nov21] →
     op_day op = Some today → "2025-11-19" ≠ isoformat today)
  ∧ ledger "2025-11-19"
      (book (run_ops int_ascii fromisoformat_ymd "imo"
               [AddBasePrice; ConfirmSale nov21 opening; VoidLast nov21;
                TodayStatsView nov21]
               (Mk_World festival_book [] [])))
    = Some [header_row; sale_of "1" "300"].
Proof.
  assert (∀ op today,
            op ∈ [AddBasePrice; ConfirmSale nov21 opening; VoidLast nov21;
                  TodayStatsView nov21] →
            op_day op = Some today → "2025-11-19" ≠ isoformat today) as H.
  { intros op today Hin Hday.
    repeat (apply elem_of_cons in Hin as [->|Hin]);
      [| | | |by apply elem_of_nil in Hin];
      simpl in Hday; try discriminate; injection Hday as <-; discriminate. }
  split; [exact H|].
  exact (other_days_are_never_touched int_ascii fromisoformat_ymd "imo"
           "2025-11-19" _ (Mk_World festival_book [] []) H).
Defined.
